(** * go-escpos: the native Windows spooler transport (printer_windows.go)

    A shallow embedding of [WindowsPrinter] and of the functions around it.
    The winspool.drv entry points are foreign code: they are modelled by an
    oracle that answers every call from the history of the calls made so
    far, and every call is recorded, with its answer, in a log.  The same
    oracle says whether the machine has room for a large [make].  The Go
    methods become computations in a state monad over the receiver object
    and that log. *)

From Stdlib Require Import ZArith List String Ascii Bool Lia.
From Stdlib Require Import Init.Byte.
Import ListNotations.
Local Open Scope Z_scope.

(** ** Machine integers (GOARCH amd64: uintptr and int are 64 bits wide) *)

Definition uint32 (z : Z) : Z := z mod 2 ^ 32.
Definition uintptr (z : Z) : Z := z mod 2 ^ 64.

(** The conversion [int(x)]: two's complement on 64 bits. *)
Definition int (z : Z) : Z := (z + 2 ^ 63) mod 2 ^ 64 - 2 ^ 63.

(** ** Data of printer_windows.go *)

Definition PRINTER_ENUM_LOCAL : Z := 0x00000002.
Definition PRINTER_ENUM_CONNECTIONS : Z := 0x00000004.

(** A [*uint16] is modelled by what it points to: [None] is the nil
    pointer, [Some us] a pointer to the 16-bit units [us] found there. *)
Definition wptr : Type := option (list Z).

Record PRINTER_INFO_4 : Type := {
  PrinterName : wptr;
  ServerName : wptr;
  Attributes : Z
}.

Record DOC_INFO_1 : Type := {
  DocName : option string;
  OutputFile : option string;
  Datatype : option string
}.

Record WindowsPrinter : Type := {
  name : string;
  handle : Z;
  buffer : list byte;
  jobStarted : bool
}.

Definition Errno : Type := Z.

(** One constructor per [fmt.Errorf] of the file; the argument is the
    error wrapped with [%w]. *)
Inductive error : Type :=
| ErrInvalidPrinterName (e : Errno)
| ErrOpenPrinter (printer : string) (e : Errno)
| ErrCreateDocName (e : Errno)
| ErrCreateDatatype (e : Errno)
| ErrStartDocument (e : Errno)
| ErrStartPage (e : Errno)
| ErrJobNotStarted
| ErrWrite (e : Errno)
| ErrReadNotSupported
| ErrClosePrinter (e : Errno)
| ErrEnumerate (e : Errno).

(** [errors.Unwrap]: the error a [%w] verb wrapped, if any. *)
Definition Unwrap (e : error) : option Errno :=
  match e with
  | ErrInvalidPrinterName x | ErrOpenPrinter _ x | ErrCreateDocName x
  | ErrCreateDatatype x | ErrStartDocument x | ErrStartPage x
  | ErrWrite x | ErrClosePrinter x | ErrEnumerate x => Some x
  | ErrJobNotStarted | ErrReadNotSupported => None
  end.

(** Run-time panics of the Go runtime that the file can raise. *)
Inductive panic : Type :=
| IndexOutOfRange (index len : Z)
| SliceBoundsOutOfRange (bound cap : Z).

(** Errors the runtime ends the process with; they are no panics and
    cannot be recovered. *)
Inductive fatal : Type :=
| OutOfMemory.

Inductive outcome (A : Type) : Type :=
| Returned (a : A)
| Panicked (p : panic)
| Died (f : fatal).
Arguments Returned {A} a.
Arguments Panicked {A} p.
Arguments Died {A} f.

(** ** The spooler as an oracle *)

(** The entry points of winspool.drv, and the request for memory the Go
    runtime makes to the operating system on behalf of [make]. *)
Inductive call : Type :=
| HeapAlloc (bytes : Z)
| OpenPrinterW (pPrinterName : string)
| ClosePrinter (h : Z)
| StartDocPrinterW (h : Z) (level : Z) (docInfo : DOC_INFO_1)
| EndDocPrinter (h : Z)
| StartPagePrinter (h : Z)
| EndPagePrinter (h : Z)
| WritePrinter (h : Z) (p : list byte) (cbBuf : Z)
| EnumPrintersW (flags : Z) (level : Z) (buf : option Z) (cbBuf : Z).

(** What a call gives back: the first result word, the last-error value,
    and the words the callee stored through the out pointers it was given
    (the fields a call has no pointer for are ignored by its caller).
    [outInfo] holds the entries the callee filled; [outBeyond i] is what
    the memory behind them reads as when it is viewed as entry [i],
    inside the buffer or past its end. *)
Record reply : Type := {
  r1 : Z;
  lastErr : Errno;
  outHandle : Z;
  outWritten : Z;
  outNeeded : Z;
  outReturned : Z;
  outInfo : list PRINTER_INFO_4;
  outBeyond : nat -> PRINTER_INFO_4
}.

Definition event : Type := (call * reply)%type.
Definition trace : Type := list event.

(** Every word coming back is cut to the width of the Go variable that
    receives it. *)
Definition clip (r : reply) : reply :=
  {| r1 := uintptr (r1 r);
     lastErr := uintptr (lastErr r);
     outHandle := uintptr (outHandle r);
     outWritten := uint32 (outWritten r);
     outNeeded := uint32 (outNeeded r);
     outReturned := uint32 (outReturned r);
     outInfo := outInfo r;
     outBeyond := outBeyond r |}.

Definition oracle : Type := trace -> call -> reply.

(** ** State: the receiver object and the log of spooler calls *)

Record machine : Type := {
  self : WindowsPrinter;
  log : trace
}.

Definition M (A : Type) : Type := machine -> A * machine.

Definition ret {A} (a : A) : M A := fun m => (a, m).
Definition bind {A B} (c : M A) (k : A -> M B) : M B :=
  fun m => k (fst (c m)) (snd (c m)).

Declare Scope go_scope.
Delimit Scope go_scope with go.
Notation "x <- c ;; k" := (bind c (fun x => k))
  (at level 100, c at next level, right associativity) : go_scope.
Notation "c ;;; k" := (bind c (fun _ => k))
  (at level 100, right associativity) : go_scope.
Local Open Scope go_scope.

Definition get_self : M WindowsPrinter := fun m => (self m, m).
Definition put_self (wp : WindowsPrinter) : M unit :=
  fun m => (tt, {| self := wp; log := log m |}).

Definition set_handle (h : Z) : M unit :=
  wp <- get_self ;;
  put_self {| name := name wp; handle := h;
              buffer := buffer wp; jobStarted := jobStarted wp |}.
Definition set_jobStarted (b : bool) : M unit :=
  wp <- get_self ;;
  put_self {| name := name wp; handle := handle wp;
              buffer := buffer wp; jobStarted := b |}.
(** [wp.buffer.Write(p)] of bytes.Buffer: append. *)
Definition buffer_Write (p : list byte) : M unit :=
  wp <- get_self ;;
  put_self {| name := name wp; handle := handle wp;
              buffer := buffer wp ++ p; jobStarted := jobStarted wp |}.

(** [syscall.UTF16PtrFromString]: EINVAL when the string holds a NUL,
    otherwise a pointer to its encoding (identified with the string). *)
Definition EINVAL : Errno := 536870951.

Fixpoint has_NUL (s : string) : bool :=
  match s with
  | EmptyString => false
  | String c s' => if Ascii.eqb c zero then true else has_NUL s'
  end.

Definition UTF16PtrFromString (s : string) : string * option Errno :=
  if has_NUL s then (EmptyString, Some EINVAL) else (s, None).

(** [syscall.UTF16ToString]: the units before the first NUL.  The Go string
    that results is represented by those units. *)
Fixpoint UTF16ToString (us : list Z) : list Z :=
  match us with
  | [] => []
  | u :: us' => if u =? 0 then [] else u :: UTF16ToString us'
  end.

(** Modelled from the spec: the session type [Printer] and its constructor
    [NewPrinter] live in printer.go, which is not among the sources.  A
    PrinterSession holds exactly one Transport reference; the zero value
    [Printer{}] holds none. *)
Inductive Printer : Type :=
| Printer_zero
| NewPrinter (dst : WindowsPrinter).

Section Spooler.

Variable os : oracle.

(** [proc.Call(...)]: ask the spooler, record the call and its answer. *)
Definition Call (c : call) : M reply :=
  fun m =>
    let r := clip (os (log m) c) in
    (r, {| self := self m; log := log m ++ [(c, r)] |}).

(** [func (wp *WindowsPrinter) startDoc() error] *)
Definition startDoc : M (option error) :=
  let (docName, err) := UTF16PtrFromString "ESC/POS Document" in
  match err with
  | Some e => ret (Some (ErrCreateDocName e))
  | None =>
    let (datatype, err) := UTF16PtrFromString "RAW" in
    match err with
    | Some e => ret (Some (ErrCreateDatatype e))
    | None =>
      let docInfo := {| DocName := Some docName;
                        OutputFile := None;
                        Datatype := Some datatype |} in
      wp <- get_self ;;
      r <- Call (StartDocPrinterW (handle wp) 1 docInfo) ;;
      if r1 r =? 0 then ret (Some (ErrStartDocument (lastErr r)))
      else
        wp <- get_self ;;
        r <- Call (StartPagePrinter (handle wp)) ;;
        if r1 r =? 0 then ret (Some (ErrStartPage (lastErr r)))
        else
          set_jobStarted true ;;;
          ret None
    end
  end.

(** [func (wp *WindowsPrinter) Write(p []byte) (int, error)].
    [&p[0]] is evaluated with the other arguments, before the call. *)
Definition Write (p : list byte) : M (outcome (Z * option error)) :=
  wp <- get_self ;;
  if negb (jobStarted wp) then ret (Returned (0, Some ErrJobNotStarted))
  else
    match p with
    | [] => ret (Panicked (IndexOutOfRange 0 0))
    | _ :: _ =>
      r <- Call (WritePrinter (handle wp) p (Z.of_nat (List.length p))) ;;
      let written := outWritten r in
      if r1 r =? 0
      then ret (Returned (int written, Some (ErrWrite (lastErr r))))
      else
        buffer_Write p ;;;
        ret (Returned (int written, None))
    end.

(** [func (wp *WindowsPrinter) Read(p []byte) (int, error)] *)
Definition Read (p : list byte) : M (Z * option error) :=
  ret (0, Some ErrReadNotSupported).

(** [func (wp *WindowsPrinter) Close() error] *)
Definition Close : M (option error) :=
  wp <- get_self ;;
  (if jobStarted wp then
     Call (EndPagePrinter (handle wp)) ;;;
     Call (EndDocPrinter (handle wp)) ;;;
     set_jobStarted false
   else ret tt) ;;;
  wp <- get_self ;;
  if negb (handle wp =? 0) then
    r <- Call (ClosePrinter (handle wp)) ;;
    if r1 r =? 0 then ret (Some (ErrClosePrinter (lastErr r)))
    else
      set_handle 0 ;;;
      ret None
  else ret None.

(** [func (wp *WindowsPrinter) Bytes() []byte] *)
Definition Bytes : M (list byte) :=
  wp <- get_self ;;
  ret (buffer wp).

(** [func NewWindowsPrinter(name string) (Printer, error)] *)
Definition NewWindowsPrinter (printer : string) : M (Printer * option error) :=
  put_self {| name := printer; handle := 0;
              buffer := []; jobStarted := false |} ;;;
  let (namePtr, err) := UTF16PtrFromString printer in
  match err with
  | Some e => ret (Printer_zero, Some (ErrInvalidPrinterName e))
  | None =>
    r <- Call (OpenPrinterW namePtr) ;;
    set_handle (outHandle r) ;;;
    if r1 r =? 0
    then ret (Printer_zero, Some (ErrOpenPrinter printer (lastErr r)))
    else
      e <- startDoc ;;
      match e with
      | Some err =>
        Close ;;;
        ret (Printer_zero, Some err)
      | None =>
        wp <- get_self ;;
        ret (NewPrinter wp, None)
      end
  end.

(** Memory.  [make] asks the Go runtime for memory, and the runtime the
    operating system.  A request below 4 GiB, which covers every size a
    uint32 count of bytes can express and so the buffer of the fetch call,
    is taken to be met.  A larger request is met or refused by the machine:
    the oracle decides (the request is no spooler call and is not logged).
    A refused request ends the process with "fatal error: out of memory". *)
Definition granted (t : trace) (bytes : Z) : bool :=
  (bytes <? 2 ^ 32) || negb (r1 (clip (os t (HeapAlloc bytes))) =? 0).

Definition make (bytes : Z) : M bool :=
  fun m => (granted (log m) bytes, m).

(** The zero value of an entry. *)
Definition zero_info : PRINTER_INFO_4 :=
  {| PrinterName := None; ServerName := None; Attributes := 0 |}.

(** [info[i]]: the buffer seen through [*[1 << 20]PRINTER_INFO_4].  The
    view is an unsafe cast, so an index behind the entries the spooler
    filled reads whatever the memory holds there. *)
Definition info_at (r : reply) (i : nat) : PRINTER_INFO_4 :=
  match nth_error (outInfo r) i with
  | Some e => e
  | None => outBeyond r i
  end.

(** The loop of GetInstalledPrinters over [info[i]], [i < returned]. *)
Fixpoint parse_names (info : nat -> PRINTER_INFO_4) (i : nat) (n : nat)
         (printers : list (list Z)) : list (list Z) :=
  match n with
  | O => printers
  | S n' =>
    let printers' :=
      match PrinterName (info i) with
      | Some us => printers ++ [UTF16ToString (firstn 1024 us)]
      | None => printers
      end in
    parse_names info (S i) n' printers'
  end.

(** [func GetInstalledPrinters() ([]string, error)]; a nil slice is
    [None], the empty slice [Some []].  On amd64 a byte takes 1 byte and a
    string header 16. *)
Definition GetInstalledPrinters
  : M (outcome (option (list (list Z)) * option error)) :=
  let flags := Z.lor PRINTER_ENUM_LOCAL PRINTER_ENUM_CONNECTIONS in
  r <- Call (EnumPrintersW flags 4 None 0) ;;
  let needed := outNeeded r in
  if needed =? 0 then ret (Returned (Some [], None))
  else
    buf <- make (1 * needed) ;;
    if negb buf then ret (Died OutOfMemory)
    else
      r <- Call (EnumPrintersW flags 4 (Some needed) needed) ;;
      let returned := outReturned r in
      if r1 r =? 0 then ret (Returned (None, Some (ErrEnumerate (lastErr r))))
      else
        printers <- make (16 * returned) ;;
        if negb printers then ret (Died OutOfMemory)
        else if 2 ^ 20 <? returned
        then ret (Panicked (SliceBoundsOutOfRange returned (2 ^ 20)))
        else ret (Returned (Some (parse_names (info_at r) 0
                                              (Z.to_nat returned) []),
                            None)).

End Spooler.

(** ** Sequences of calls on one printer *)

Inductive op : Type :=
| OpWrite (p : list byte)
| OpRead (p : list byte)
| OpClose
| OpBytes.

Inductive result : Type :=
| ResWrite (o : outcome (Z * option error))
| ResRead (r : Z * option error)
| ResClose (e : option error)
| ResBytes (b : list byte).

Definition step (os : oracle) (o : op) : M result :=
  match o with
  | OpWrite p => r <- Write os p ;; ret (ResWrite r)
  | OpRead p => r <- Read p ;; ret (ResRead r)
  | OpClose => e <- Close os ;; ret (ResClose e)
  | OpBytes => b <- Bytes ;; ret (ResBytes b)
  end.

Fixpoint run (os : oracle) (ops : list op) : M (list result) :=
  match ops with
  | [] => ret []
  | o :: ops' =>
    r <- step os o ;;
    rs <- run os ops' ;;
    ret (r :: rs)
  end.

(** The payload of a call, when the call is a Write that returned a nil
    error; nothing otherwise. *)
Definition delivered (o : op) (r : result) : list byte :=
  match o, r with
  | OpWrite p, ResWrite (Returned (_, None)) => p
  | _, _ => []
  end.

Fixpoint payloads (ops : list op) (rs : list result) : list byte :=
  match ops, rs with
  | o :: ops', r :: rs' => delivered o r ++ payloads ops' rs'
  | _, _ => []
  end.

(** ** Reading the log *)

(** The events a computation added to the log. *)
Definition since (m m' : machine) : trace :=
  skipn (List.length (log m)) (log m').

Definition failed (ev : event) : bool := r1 (snd ev) =? 0.

Definition first_failure (steps : trace) : option event := find failed steps.

(** "The error returned is the first error met among [steps]". *)
Definition reports_first_error (res : option error) (steps : trace) : Prop :=
  match first_failure steps with
  | None => res = None
  | Some ev => exists e, res = Some e /\ Unwrap e = Some (lastErr (snd ev))
  end.

Definition is_release (ev : event) : bool :=
  match fst ev with
  | ClosePrinter _ => true
  | _ => false
  end.

(** The teardown calls Close has to make for a receiver [wp]. *)
Definition teardown (wp : WindowsPrinter) : list call :=
  (if jobStarted wp
   then [EndPagePrinter (handle wp); EndDocPrinter (handle wp)]
   else [])
  ++ (if handle wp =? 0 then [] else [ClosePrinter (handle wp)]).

(** The handles the spooler has given out and not taken back, as the log
    tells: a successful OpenPrinterW hands one out, a successful
    ClosePrinter takes it back. *)
Definition account (hs : list Z) (ev : event) : list Z :=
  match ev with
  | (OpenPrinterW _, r) => if r1 r =? 0 then hs else outHandle r :: hs
  | (ClosePrinter h, r) => if r1 r =? 0 then hs else remove Z.eq_dec h hs
  | _ => hs
  end.

Definition open_handles (t : trace) : list Z := fold_left account t [].

(** The answer of the spooler to the WritePrinter call that [Write p]
    makes in state [m]. *)
Definition write_reply (os : oracle) (p : list byte) (m : machine) : reply :=
  clip (os (log m) (WritePrinter (handle (self m)) p (Z.of_nat (List.length p)))).

(** "A count below the length of the buffer makes Write fail". *)
Definition short_write_is_error (os : oracle) (p : list byte) (m : machine) : Prop :=
  jobStarted (self m) = true ->
  outWritten (write_reply os p m) < Z.of_nat (List.length p) ->
  exists n e, fst (Write os p m) = Returned (n, Some e).

(** The receiver with its captured bytes replaced. *)
Definition with_buffer (wp : WindowsPrinter) (b : list byte) : WindowsPrinter :=
  {| name := name wp; handle := handle wp; buffer := b;
     jobStarted := jobStarted wp |}.


(** The document description startDoc passes to StartDocPrinterW. *)
Definition raw_document : DOC_INFO_1 :=
  {| DocName := Some "ESC/POS Document"%string;
     OutputFile := None;
     Datatype := Some "RAW"%string |}.

(** ** The command encoder's character size *)

(** Modelled from the spec: the error taxonomy of the encoder (printer.go is
    not among the sources); only InvalidArgument is needed here. *)
Inductive encode_error : Type :=
| InvalidArgument.

Definition GS : Z := 0x1D.

(** Modelled from the spec: [ SetCharacterSize(widthMultiplier,
    heightMultiplier) ] of printer.go, which is not among the sources.
    "Each in [0,7]; encoded as one byte (width<<4 | height).  Values
    outside [0,7] fail with InvalidArgument -- no clamping."  The command
    on the wire is [GS ! n]. *)
Definition SetCharacterSize (widthMultiplier heightMultiplier : Z)
  : list Z + encode_error :=
  if (0 <=? widthMultiplier) && (widthMultiplier <=? 7)
     && (0 <=? heightMultiplier) && (heightMultiplier <=? 7)
  then inl [GS; 0x21; Z.lor (Z.shiftl widthMultiplier 4) heightMultiplier]
  else inr InvalidArgument.

(** ** Sample spoolers and states *)

Definition answer (ok : bool) (e : Errno) (h written : Z) : reply :=
  {| r1 := if ok then 1 else 0; lastErr := e;
     outHandle := h; outWritten := written;
     outNeeded := 0; outReturned := 0; outInfo := [];
     outBeyond := fun _ => zero_info |}.

(** A spooler that accepts everything and reports no printer. *)
Definition os_ready : oracle :=
  fun _ c =>
    match c with
    | OpenPrinterW _ => answer true 0 42 0
    | WritePrinter _ _ n => answer true 0 0 n
    | _ => answer true 0 0 0
    end.

(** As [os_ready], but EndPagePrinter fails (ERROR_INVALID_HANDLE). *)
Definition os_endpage_fails : oracle :=
  fun t c =>
    match c with
    | EndPagePrinter _ => answer false 6 0 0
    | _ => os_ready t c
    end.

(** As [os_ready], but WritePrinter takes two bytes and reports success. *)
Definition os_short_write : oracle :=
  fun t c =>
    match c with
    | WritePrinter _ _ _ => answer true 0 0 2
    | _ => os_ready t c
    end.

(** As [os_ready], but WritePrinter fails (ERROR_ACCESS_DENIED). *)
Definition os_write_fails : oracle :=
  fun t c =>
    match c with
    | WritePrinter _ _ _ => answer false 5 0 0
    | _ => os_ready t c
    end.


Definition wp_started : WindowsPrinter :=
  {| name := "POS-80"; handle := 42; buffer := []; jobStarted := true |}.
Definition wp_opened : WindowsPrinter :=
  {| name := "POS-80"; handle := 42; buffer := []; jobStarted := false |}.
Definition wp_zero : WindowsPrinter :=
  {| name := ""; handle := 0; buffer := []; jobStarted := false |}.

Definition m_started : machine := {| self := wp_started; log := [] |}.
Definition m_opened : machine := {| self := wp_opened; log := [] |}.
Definition m_zero : machine := {| self := wp_zero; log := [] |}.

Definition hello : list byte := [x68; x65; x6c; x6c; x6f].

(** ** Reading calls and results *)

(** The handle a spooler call is made on, when it takes one. *)
Definition call_handle (c : call) : option Z :=
  match c with
  | HeapAlloc _ => None
  | OpenPrinterW _ => None
  | EnumPrintersW _ _ _ _ => None
  | ClosePrinter h => Some h
  | StartDocPrinterW h _ _ => Some h
  | EndDocPrinter h => Some h
  | StartPagePrinter h => Some h
  | EndPagePrinter h => Some h
  | WritePrinter h _ _ => Some h
  end.

Definition is_EndPage (c : call) : bool :=
  match c with EndPagePrinter _ => true | _ => false end.
Definition is_EndDoc (c : call) : bool :=
  match c with EndDocPrinter _ => true | _ => false end.
Definition is_ClosePrinter (c : call) : bool :=
  match c with ClosePrinter _ => true | _ => false end.
Definition is_OpenPrinterW (c : call) : bool :=
  match c with OpenPrinterW _ => true | _ => false end.
Definition is_WritePrinter (c : call) : bool :=
  match c with WritePrinter _ _ _ => true | _ => false end.

(** The WritePrinter call a Write of [p] makes on the handle [h]. *)
Definition write_call (h : Z) (p : list byte) : call :=
  WritePrinter h p (Z.of_nat (List.length p)).

(** The spooler calls one operation makes on a receiver [wp]. *)
Definition step_calls (o : op) (wp : WindowsPrinter) : list call :=
  match o with
  | OpWrite p =>
    if jobStarted wp then
      match p with
      | [] => []
      | _ :: _ => [WritePrinter (handle wp) p (Z.of_nat (List.length p))]
      end
    else []
  | OpClose => teardown wp
  | OpRead _ => []
  | OpBytes => []
  end.

(** A Write turned down because no job is started. *)
Definition refused (r : result) : Prop :=
  match r with
  | ResWrite o => o = Returned (0, Some ErrJobNotStarted)
  | _ => True
  end.

(** The two calls of the query-then-fetch protocol of GetInstalledPrinters. *)
Definition enum_query : call :=
  EnumPrintersW (Z.lor PRINTER_ENUM_LOCAL PRINTER_ENUM_CONNECTIONS) 4 None 0.
Definition enum_fetch (needed : Z) : call :=
  EnumPrintersW (Z.lor PRINTER_ENUM_LOCAL PRINTER_ENUM_CONNECTIONS) 4
                (Some needed) needed.

(** The name one entry of the enumeration contributes. *)
Definition entry_name (e : PRINTER_INFO_4) : list (list Z) :=
  match PrinterName e with
  | Some us => [UTF16ToString (firstn 1024 us)]
  | None => []
  end.

(** A name as the enumeration cuts it: no NUL unit, 1024 units at most. *)
Definition well_cut (nm : list Z) : Prop :=
  ~ In 0 nm /\ (List.length nm <= 1024)%nat.

(** ** More sample spoolers *)

(** As [os_ready], but OpenPrinterW fails (ERROR_INVALID_PRINTER_NAME). *)
Definition os_open_fails : oracle :=
  fun t c =>
    match c with
    | OpenPrinterW _ => answer false 1801 0 0
    | _ => os_ready t c
    end.

(** As [os_ready], but ClosePrinter fails (ERROR_INVALID_HANDLE). *)
Definition os_close_fails : oracle :=
  fun t c =>
    match c with
    | ClosePrinter _ => answer false 6 0 0
    | _ => os_ready t c
    end.

Definition enum_answer (ok : bool) (e : Errno) (needed returned : Z)
           (info : list PRINTER_INFO_4) : reply :=
  {| r1 := if ok then 1 else 0; lastErr := e;
     outHandle := 0; outWritten := 0;
     outNeeded := needed; outReturned := returned; outInfo := info;
     outBeyond := fun _ => zero_info |}.

(** Three entries, the second without a name: "POS" and "LP". *)
Definition three_entries : list PRINTER_INFO_4 :=
  [ {| PrinterName := Some [80; 79; 83; 0]; ServerName := None; Attributes := 64 |};
    {| PrinterName := None; ServerName := None; Attributes := 0 |};
    {| PrinterName := Some [76; 80; 0; 88]; ServerName := None; Attributes := 64 |} ].

(** A spooler with those three entries. *)
Definition os_three_entries : oracle :=
  fun _ c =>
    match c with
    | EnumPrintersW _ _ None _ => enum_answer false 122 72 0 []
    | EnumPrintersW _ _ (Some _) _ => enum_answer true 0 72 3 three_entries
    | _ => answer true 0 0 0
    end.

(** A spooler whose fetch call fails (ERROR_INSUFFICIENT_BUFFER). *)
Definition os_fetch_fails : oracle :=
  fun _ c =>
    match c with
    | EnumPrintersW _ _ None _ => enum_answer false 122 72 0 []
    | EnumPrintersW _ _ (Some _) _ => enum_answer false 122 96 0 []
    | _ => answer true 0 0 0
    end.

(** A spooler that reports more entries than the array type holds. *)
Definition os_too_many : oracle :=
  fun _ c =>
    match c with
    | EnumPrintersW _ _ None _ => enum_answer false 122 72 0 []
    | EnumPrintersW _ _ (Some _) _ => enum_answer true 0 72 (2 ^ 20 + 1) []
    | _ => answer true 0 0 0
    end.

(** A spooler that reports 2^32-1 entries, on a machine that has no room
    for that many string headers. *)
Definition os_out_of_memory : oracle :=
  fun _ c =>
    match c with
    | HeapAlloc _ => answer false 8 0 0
    | EnumPrintersW _ _ None _ => enum_answer false 122 72 0 []
    | EnumPrintersW _ _ (Some _) _ => enum_answer true 0 72 (2 ^ 32 - 1) []
    | _ => answer true 0 0 0
    end.



(** * Properties *)

(** ** Machine integers *)

Lemma uint32_range (z : Z) : 0 <= uint32 z < 2 ^ 32.
Proof. unfold uint32. apply Z.mod_pos_bound. lia. Qed.

Lemma int_uint32 (z : Z) : int (uint32 z) = uint32 z.
Proof.
  pose proof (uint32_range z) as H. unfold int.
  rewrite Z.mod_small; lia.
Qed.

(** ** The log only grows *)

Lemma since_app (m m' : machine) (t : trace) :
  log m' = log m ++ t -> since m m' = t.
Proof.
  intros H. unfold since. rewrite H.
  rewrite skipn_app, skipn_all, Nat.sub_diag. reflexivity.
Qed.

Lemma open_handles_snoc (t : trace) (ev : event) :
  open_handles (t ++ [ev]) = account (open_handles t) ev.
Proof. unfold open_handles. rewrite fold_left_app. reflexivity. Qed.

(** ** Close *)

(** What Close does, in full: the calls it makes (with the answers of the
    spooler), the state it leaves and the value it returns. *)
Lemma Close_unfold (os : oracle) (m : machine) :
  let h := handle (self m) in
  let t1 := if jobStarted (self m)
            then log m ++ [(EndPagePrinter h, clip (os (log m) (EndPagePrinter h)))]
            else log m in
  let t2 := if jobStarted (self m)
            then t1 ++ [(EndDocPrinter h, clip (os t1 (EndDocPrinter h)))]
            else t1 in
  let rc := clip (os t2 (ClosePrinter h)) in
  Close os m =
  if h =? 0
  then (None, {| self := {| name := name (self m); handle := h;
                            buffer := buffer (self m); jobStarted := false |};
                 log := t2 |})
  else if r1 rc =? 0
  then (Some (ErrClosePrinter (lastErr rc)),
        {| self := {| name := name (self m); handle := h;
                      buffer := buffer (self m); jobStarted := false |};
           log := t2 ++ [(ClosePrinter h, rc)] |})
  else (None, {| self := {| name := name (self m); handle := 0;
                            buffer := buffer (self m); jobStarted := false |};
                 log := t2 ++ [(ClosePrinter h, rc)] |}).
Proof.
  destruct m as [[n h b j] t]. cbn zeta.
  destruct j;
    cbv [Close bind get_self set_jobStarted set_handle put_self ret Call
         self log handle jobStarted name buffer fst snd negb];
    destruct (h =? 0); try reflexivity;
    match goal with |- context [r1 ?r =? 0] => destruct (r1 r =? 0) end;
    reflexivity.
Qed.

Lemma snoc2 {A} (t : list A) (a b : A) : (t ++ [a]) ++ [b] = t ++ [a; b].
Proof. rewrite <- app_assoc. reflexivity. Qed.

Lemma snoc3 {A} (t : list A) (a b c : A) :
  ((t ++ [a]) ++ [b]) ++ [c] = t ++ [a; b; c].
Proof. rewrite <- !app_assoc. reflexivity. Qed.

Lemma Close_log (os : oracle) (m : machine) :
  exists t,
    log (snd (Close os m)) = log m ++ t
    /\ map fst t = teardown (self m)
    /\ reports_first_error (fst (Close os m)) (filter is_release t).
Proof.
  rewrite Close_unfold. unfold teardown, reports_first_error, first_failure.
  destruct m as [[n h b j] t]; cbn [self log handle jobStarted].
  destruct j; destruct (h =? 0) eqn:Hh; cbn [fst snd log].
  - eexists. split; [apply snoc2|].
    split; reflexivity.
  - match goal with |- context [r1 ?r =? 0] => destruct (r1 r =? 0) eqn:Hr end;
      cbn [fst snd log];
      (eexists; split; [apply snoc3|]);
      (split; [reflexivity|]);
      cbn [filter is_release fst app find]; unfold failed; cbn [snd];
      rewrite Hr.
    + eexists. split; reflexivity.
    + reflexivity.
  - exists []. rewrite app_nil_r. repeat split.
  - match goal with |- context [r1 ?r =? 0] => destruct (r1 r =? 0) eqn:Hr end;
      cbn [fst snd log];
      (eexists; split; [reflexivity|]);
      (split; [reflexivity|]);
      cbn [filter is_release fst app find]; unfold failed; cbn [snd];
      rewrite Hr.
    + eexists. split; reflexivity.
    + reflexivity.
Qed.

(** C1, as the code has it.  Close issues end-page and end-document when
    the job is started, and then the release of the handle when the handle
    is not zero, each whatever the calls before it answered; the calls come
    in that order and nothing else is called.  The answers of end-page and
    end-document are dropped: the value returned is the first error among
    the release calls, that is the error of ClosePrinter when it fails and
    nil otherwise. *)
Theorem Close_teardown (os : oracle) (m : machine) :
  let res := fst (Close os m) in
  let m' := snd (Close os m) in
  log m' = log m ++ since m m'
  /\ map fst (since m m') = teardown (self m)
  /\ reports_first_error res (filter is_release (since m m')).
Proof.
  cbn zeta. destruct (Close_log os m) as [t [Hlog [Hcalls Hres]]].
  rewrite (since_app _ _ _ Hlog). auto.
Qed.

(** C1, as the spec states it, fails: with a job started and a spooler
    whose EndPagePrinter fails while ClosePrinter succeeds, the first error
    among the teardown steps is the one of end-page, and Close returns nil. *)
Lemma Close_hides_EndPage_error :
  ~ reports_first_error
      (fst (Close os_endpage_fails m_started))
      (since m_started (snd (Close os_endpage_fails m_started))).
Proof.
  intros H. vm_compute in H. destruct H as [e [H _]]. discriminate H.
Qed.

(** C4.  Close is idempotent: when a Close has returned nil, the next Close
    returns nil and leaves the whole state as it was, the log of spooler
    calls included, so it calls nothing. *)
Theorem Close_idempotent (os : oracle) (m m' : machine) :
  Close os m = (None, m') ->
  Close os m' = (None, m') /\ since m' (snd (Close os m')) = [].
Proof.
  intros H. rewrite Close_unfold in H. cbn zeta in H.
  assert (Hm' : jobStarted (self m') = false /\ handle (self m') = 0).
  { destruct (handle (self m) =? 0) eqn:Hh.
    - apply Z.eqb_eq in Hh. inversion H; subst m'. cbn. auto.
    - match type of H with context [r1 ?r =? 0] => destruct (r1 r =? 0) end;
        inversion H; subst m'. cbn. auto. }
  destruct Hm' as [Hj Hh].
  assert (Hc : Close os m' = (None, m')).
  { rewrite Close_unfold. cbn zeta. rewrite Hj, Hh. cbn [Z.eqb].
    destruct m' as [[n h b j] t]. cbn in *. subst. reflexivity. }
  split; [exact Hc|]. rewrite Hc. cbn [snd].
  apply since_app. rewrite app_nil_r. reflexivity.
Qed.

Lemma Close_idempotent_witness :
  Close os_ready m_started = (None, snd (Close os_ready m_started))
  /\ Close os_ready (snd (Close os_ready m_started))
     = (None, snd (Close os_ready m_started))
  /\ since (snd (Close os_ready m_started))
           (snd (Close os_ready (snd (Close os_ready m_started)))) = [].
Proof.
  split.
  - vm_compute. reflexivity.
  - apply (Close_idempotent os_ready m_started). vm_compute. reflexivity.
Defined.


(** C5.  When only the handle was opened (handle not zero, job not
    started), Close calls ClosePrinter on the handle and nothing else: no
    end-page, no end-document.  When the spooler accepts the call, Close
    returns nil, the handle field is zero and the handle is no longer
    among the open ones. *)
Theorem Close_after_Open_only (os : oracle) (m : machine) :
  jobStarted (self m) = false ->
  handle (self m) <> 0 ->
  let h := handle (self m) in
  let rc := clip (os (log m) (ClosePrinter h)) in
  let m' := snd (Close os m) in
  since m m' = [(ClosePrinter h, rc)]
  /\ log m' = log m ++ [(ClosePrinter h, rc)]
  /\ (r1 rc <> 0 ->
      fst (Close os m) = None /\ handle (self m') = 0
      /\ ~ In h (open_handles (log m'))).
Proof.
  intros Hj Hh. cbn zeta. rewrite Close_unfold. cbn zeta. rewrite Hj.
  apply Z.eqb_neq in Hh. rewrite Hh.
  destruct (r1 (clip (os (log m) (ClosePrinter (handle (self m))))) =? 0) eqn:Hr;
    cbn [fst snd log self handle].
  - split; [apply since_app; reflexivity|]. split; [reflexivity|].
    intros Hn. apply Z.eqb_eq in Hr. contradiction.
  - split; [apply since_app; reflexivity|]. split; [reflexivity|].
    intros _. repeat split.
    rewrite open_handles_snoc. cbn [account]. rewrite Hr.
    apply remove_In.
Qed.

Lemma Close_after_Open_only_witness :
  jobStarted (self m_opened) = false
  /\ handle (self m_opened) <> 0
  /\ since m_opened (snd (Close os_ready m_opened))
     = [(ClosePrinter 42, clip (os_ready [] (ClosePrinter 42)))].
Proof.
  split; [reflexivity|]. split; [vm_compute; discriminate|].
  apply (Close_after_Open_only os_ready m_opened).
  - reflexivity.
  - vm_compute. discriminate.
Defined.

(** ** Write *)

Lemma Write_not_started (os : oracle) (p : list byte) (m : machine) :
  jobStarted (self m) = false ->
  Write os p m = (Returned (0, Some ErrJobNotStarted), m).
Proof.
  intros Hj. cbv [Write bind get_self ret fst snd negb]. rewrite Hj.
  reflexivity.
Qed.

Lemma Write_empty (os : oracle) (m : machine) :
  jobStarted (self m) = true ->
  Write os [] m = (Panicked (IndexOutOfRange 0 0), m).
Proof.
  intros Hj. cbv [Write bind get_self ret fst snd negb]. rewrite Hj.
  reflexivity.
Qed.

Lemma Write_started (os : oracle) (p : list byte) (m : machine) :
  jobStarted (self m) = true ->
  p <> [] ->
  let r := write_reply os p m in
  let c := WritePrinter (handle (self m)) p (Z.of_nat (List.length p)) in
  Write os p m =
  if r1 r =? 0
  then (Returned (int (outWritten r), Some (ErrWrite (lastErr r))),
        {| self := self m; log := log m ++ [(c, r)] |})
  else (Returned (int (outWritten r), None),
        {| self := with_buffer (self m) (buffer (self m) ++ p);
           log := log m ++ [(c, r)] |}).
Proof.
  intros Hj Hp. destruct p as [|x p]; [contradiction|].
  cbv zeta. unfold write_reply, with_buffer.
  destruct m as [[n h b j] t]. cbn [self log jobStarted] in *. subst j.
  cbv [Write bind get_self ret fst snd negb Call buffer_Write put_self
       self log jobStarted handle name buffer].
  match goal with |- context [r1 ?r =? 0] => destruct (r1 r =? 0) end;
    reflexivity.
Qed.

(** What Write does with a non-empty buffer and the job started: exactly
    one WritePrinter call (no retry).  When the call reports failure (a
    zero result) Write fails with the write error and the buffer of
    captured bytes is as before; when it reports success Write returns a
    nil error and captures the whole buffer, without comparing the count
    with the length of the buffer.  In both cases the count returned is
    the count the spooler stored, unchanged. *)
Theorem Write_single_call (os : oracle) (p : list byte) (m : machine) :
  jobStarted (self m) = true ->
  p <> [] ->
  let r := write_reply os p m in
  let c := WritePrinter (handle (self m)) p (Z.of_nat (List.length p)) in
  let m' := snd (Write os p m) in
  since m m' = [(c, r)]
  /\ log m' = log m ++ [(c, r)]
  /\ (r1 r = 0 ->
      fst (Write os p m) = Returned (outWritten r, Some (ErrWrite (lastErr r)))
      /\ self m' = self m)
  /\ (r1 r <> 0 ->
      fst (Write os p m) = Returned (outWritten r, None)
      /\ self m' = with_buffer (self m) (buffer (self m) ++ p)).
Proof.
  intros Hj Hp. cbv zeta. rewrite (Write_started os p m Hj Hp). cbv zeta.
  assert (Hi : int (outWritten (write_reply os p m))
               = outWritten (write_reply os p m)).
  { unfold write_reply, clip. cbn [outWritten]. apply int_uint32. }
  rewrite Hi.
  destruct (r1 (write_reply os p m) =? 0) eqn:Hr; cbn [fst snd log self].
  - split; [apply since_app; reflexivity|]. split; [reflexivity|].
    split; [auto|]. intros Hn. apply Z.eqb_eq in Hr. contradiction.
  - split; [apply since_app; reflexivity|]. split; [reflexivity|].
    split; [|auto]. intros Hz. apply Z.eqb_neq in Hr. contradiction.
Qed.

Lemma Write_single_call_witness :
  jobStarted (self m_started) = true
  /\ hello <> []
  /\ since m_started (snd (Write os_write_fails hello m_started))
     = [(WritePrinter 42 hello 5, write_reply os_write_fails hello m_started)].
Proof.
  split; [reflexivity|]. split; [discriminate|].
  apply (Write_single_call os_write_fails hello m_started).
  - reflexivity.
  - discriminate.
Defined.

(** The comparison of the count with the length is missing: when the
    spooler takes two of five bytes and reports success, a short count
    does not make Write fail. *)
Lemma Write_short_count_succeeds :
  ~ short_write_is_error os_short_write hello m_started.
Proof.
  unfold short_write_is_error. intros H.
  destruct H as [n [e H]].
  - reflexivity.
  - vm_compute. reflexivity.
  - vm_compute in H. discriminate H.
Qed.

(** C2.  The code at the failing input: the job is started, the buffer
    holds five bytes, and the spooler takes two of them and reports
    success.  A count below the length of the buffer has to make Write
    fail, as the contract of io.Writer, which the type is declared to
    implement, also asks.  Write makes its one call and returns the count
    2 with a nil error; and Bytes then gives all five bytes as written to
    the printer. *)
Theorem Write_short_count_at_input :
  let r := Write os_short_write hello m_started in
  fst r = Returned (2, None)
  /\ 2 < Z.of_nat (List.length hello)
  /\ fst (Bytes (snd r)) = hello
  /\ map fst (log (snd r)) = [WritePrinter 42 hello 5].
Proof. vm_compute. repeat split. Qed.

(** C3.  With the job not started, Write returns the error "print job not
    started" (and the count 0) whatever the buffer, and leaves the whole
    state as it was: job state, handle, captured bytes, and the log of
    spooler calls, so nothing was called. *)
Theorem Write_outside_job (os : oracle) (p : list byte) (m : machine) :
  jobStarted (self m) = false ->
  Write os p m = (Returned (0, Some ErrJobNotStarted), m).
Proof. apply Write_not_started. Qed.

Lemma Write_outside_job_witness :
  jobStarted (self m_opened) = false
  /\ Write os_ready hello m_opened
     = (Returned (0, Some ErrJobNotStarted), m_opened).
Proof.
  split; [reflexivity|].
  apply (Write_outside_job os_ready hello m_opened). reflexivity.
Defined.

(** C9.  With the job started, Write of the empty slice evaluates [&p[0]]
    before anything else: it panics with an index out of range and returns
    nothing.  No spooler call is made and the state is as before. *)
Theorem Write_empty_slice_panics (os : oracle) (m : machine) :
  jobStarted (self m) = true ->
  Write os [] m = (Panicked (IndexOutOfRange 0 0), m).
Proof. apply Write_empty. Qed.

Lemma Write_empty_slice_panics_witness :
  jobStarted (self m_started) = true
  /\ Write os_ready [] m_started = (Panicked (IndexOutOfRange 0 0), m_started).
Proof.
  split; [reflexivity|].
  apply (Write_empty_slice_panics os_ready m_started). reflexivity.
Defined.

(** ** startDoc and NewWindowsPrinter *)

Lemma startDoc_unfold (os : oracle) (m : machine) :
  let h := handle (self m) in
  let rd := clip (os (log m) (StartDocPrinterW h 1 raw_document)) in
  let t1 := log m ++ [(StartDocPrinterW h 1 raw_document, rd)] in
  let rp := clip (os t1 (StartPagePrinter h)) in
  startDoc os m =
  if r1 rd =? 0
  then (Some (ErrStartDocument (lastErr rd)), {| self := self m; log := t1 |})
  else if r1 rp =? 0
  then (Some (ErrStartPage (lastErr rp)),
        {| self := self m; log := t1 ++ [(StartPagePrinter h, rp)] |})
  else (None,
        {| self := {| name := name (self m); handle := h;
                      buffer := buffer (self m); jobStarted := true |};
           log := t1 ++ [(StartPagePrinter h, rp)] |}).
Proof.
  cbv zeta. unfold startDoc.
  change (UTF16PtrFromString "ESC/POS Document")
    with ("ESC/POS Document"%string, @None Errno).
  change (UTF16PtrFromString "RAW") with ("RAW"%string, @None Errno).
  destruct m as [wp t].
  cbv [bind get_self ret fst snd Call set_jobStarted put_self self log].
  fold raw_document.
  repeat match goal with
         | |- context [r1 ?r =? 0] => destruct (r1 r =? 0)
         end; reflexivity.
Qed.

Lemma NewWindowsPrinter_unfold (os : oracle) (printer : string) (m : machine) :
  let fresh h := {| name := printer; handle := h;
                    buffer := []; jobStarted := false |} in
  let ro := clip (os (log m) (OpenPrinterW printer)) in
  let m1 := {| self := fresh (outHandle ro);
               log := log m ++ [(OpenPrinterW printer, ro)] |} in
  NewWindowsPrinter os printer m =
  if has_NUL printer
  then ((Printer_zero, Some (ErrInvalidPrinterName EINVAL)),
        {| self := fresh 0; log := log m |})
  else if r1 ro =? 0
  then ((Printer_zero, Some (ErrOpenPrinter printer (lastErr ro))), m1)
  else match fst (startDoc os m1) with
       | Some err =>
         ((Printer_zero, Some err), snd (Close os (snd (startDoc os m1))))
       | None =>
         ((NewPrinter (self (snd (startDoc os m1))), None),
          snd (startDoc os m1))
       end.
Proof.
  cbv zeta. unfold NewWindowsPrinter, UTF16PtrFromString.
  destruct (has_NUL printer).
  - reflexivity.
  - cbv [bind put_self get_self set_handle ret fst snd Call self log
         name handle buffer jobStarted].
    match goal with |- context [r1 ?r =? 0] => destruct (r1 r =? 0) end;
      [reflexivity|].
    match goal with |- context [startDoc os ?x] => destruct (startDoc os x) as [[e|] m2] end;
      reflexivity.
Qed.






(** ** The captured bytes *)

Lemma Write_buffer (os : oracle) (p : list byte) (m : machine) :
  buffer (self (snd (Write os p m)))
  = buffer (self m) ++ delivered (OpWrite p) (ResWrite (fst (Write os p m))).
Proof.
  destruct (jobStarted (self m)) eqn:Hj.
  - destruct p as [|x p].
    + rewrite (Write_empty os m Hj). cbn. rewrite app_nil_r. reflexivity.
    + assert (Hp : x :: p <> []) by discriminate.
      rewrite (Write_started os (x :: p) m Hj Hp). cbv zeta.
      destruct (r1 (write_reply os (x :: p) m) =? 0); cbn.
      * rewrite app_nil_r. reflexivity.
      * reflexivity.
  - rewrite (Write_not_started os p m Hj). cbn. rewrite app_nil_r. reflexivity.
Qed.

Lemma Close_buffer (os : oracle) (m : machine) :
  buffer (self (snd (Close os m))) = buffer (self m).
Proof.
  rewrite Close_unfold. cbv zeta.
  destruct (handle (self m) =? 0); [reflexivity|].
  match goal with |- context [r1 ?r =? 0] => destruct (r1 r =? 0) end;
    reflexivity.
Qed.

Lemma step_buffer (os : oracle) (o : op) (m : machine) :
  buffer (self (snd (step os o m)))
  = buffer (self m) ++ delivered o (fst (step os o m)).
Proof.
  destruct o as [p|p| |]; cbv [step bind ret fst snd].
  - apply Write_buffer.
  - cbn. rewrite app_nil_r. reflexivity.
  - cbn [delivered]. rewrite app_nil_r.
    exact (Close_buffer os m).
  - cbn. rewrite app_nil_r. reflexivity.
Qed.

Lemma run_buffer (os : oracle) (ops : list op) :
  forall m,
    buffer (self (snd (run os ops m)))
    = buffer (self m) ++ payloads ops (fst (run os ops m)).
Proof.
  induction ops as [|o ops IH]; intros m.
  - cbn. rewrite app_nil_r. reflexivity.
  - cbn [run]. unfold bind at 1. unfold bind at 1. unfold bind at 2.
    unfold bind at 1. cbn [ret fst snd payloads].
    rewrite IH, step_buffer, app_assoc. reflexivity.
Qed.

Lemma run_length (os : oracle) (ops : list op) :
  forall m, List.length (fst (run os ops m)) = List.length ops.
Proof.
  induction ops as [|o ops IH]; intros m.
  - reflexivity.
  - cbn [run]. cbv [bind ret fst snd]. fold (run os ops).
    cbn [List.length]. f_equal. apply IH.
Qed.

Lemma NewWindowsPrinter_buffer (os : oracle) (printer : string) (m : machine) :
  buffer (self (snd (NewWindowsPrinter os printer m))) = [].
Proof.
  rewrite NewWindowsPrinter_unfold. cbv zeta.
  destruct (has_NUL printer); [reflexivity|].
  match goal with |- context [r1 ?r =? 0] => destruct (r1 r =? 0) end;
    [reflexivity|].
  match goal with
  | |- context [startDoc os ?x] =>
    assert (Hb : buffer (self (snd (startDoc os x))) = []);
      [|destruct (startDoc os x) as [[e|] m2]; cbn [fst snd] in *;
        [rewrite Close_buffer|]; exact Hb]
  end.
  rewrite startDoc_unfold. cbv zeta.
  repeat match goal with
         | |- context [(if r1 ?r =? 0 then _ else _)] => destruct (r1 r =? 0)
         end; reflexivity.
Qed.

(** The scenario of the spec: open, write, close against a recording
    spooler gives the calls Open, StartDocument, StartPage, Write, EndPage,
    EndDocument, ReleaseHandle. *)
Example full_job_calls :
  let m1 := snd (NewWindowsPrinter os_ready "POS-80" m_zero) in
  let m2 := snd (run os_ready [OpWrite hello; OpClose] m1) in
  map fst (log m2)
  = [OpenPrinterW "POS-80"; StartDocPrinterW 42 1 raw_document;
     StartPagePrinter 42; WritePrinter 42 hello 5;
     EndPagePrinter 42; EndDocPrinter 42; ClosePrinter 42].
Proof. vm_compute. reflexivity. Qed.

Example Bytes_after_two_writes :
  let m1 := snd (NewWindowsPrinter os_ready "POS-80" m_zero) in
  let m2 := snd (run os_ready [OpWrite hello; OpWrite []; OpClose; OpWrite hello] m1) in
  fst (Bytes m2) = hello.
Proof. vm_compute. reflexivity. Qed.

(** C10.  Over the life of a printer made by NewWindowsPrinter, whatever
    calls are made on it, Bytes returns exactly the payloads of the Write
    calls that returned a nil error, in the order of the calls; every call
    of the sequence gets its result.  The same holds from any state, on
    top of the bytes captured before.  A Write that returns an error
    leaves the captured bytes as they were. *)
Theorem Bytes_is_concatenation
        (os : oracle) (printer : string) (ops : list op) (m : machine) :
  let m1 := snd (NewWindowsPrinter os printer m) in
  (fst (Bytes (snd (run os ops m1))) = payloads ops (fst (run os ops m1))
   /\ List.length (fst (run os ops m1)) = List.length ops)
  /\ fst (Bytes (snd (run os ops m)))
     = fst (Bytes m) ++ payloads ops (fst (run os ops m))
  /\ forall p n e,
      fst (Write os p m) = Returned (n, Some e) ->
      fst (Bytes (snd (Write os p m))) = fst (Bytes m).
Proof.
  cbv zeta. unfold Bytes, bind, get_self, ret. cbn [fst].
  repeat split.
  - rewrite run_buffer, NewWindowsPrinter_buffer. reflexivity.
  - apply run_length.
  - apply run_buffer.
  - intros p n e H. rewrite Write_buffer. cbn [delivered].
    rewrite H. apply app_nil_r.
Qed.

Lemma Bytes_is_concatenation_witness :
  fst (Write os_write_fails hello m_started) = Returned (0, Some (ErrWrite 5))
  /\ fst (Bytes (snd (Write os_write_fails hello m_started)))
     = fst (Bytes m_started).
Proof.
  split; [vm_compute; reflexivity|].
  apply (proj2 (proj2 (Bytes_is_concatenation os_write_fails "POS-80" [] m_started))
               hello 0 (ErrWrite 5)).
  vm_compute. reflexivity.
Defined.

(** ** Enumeration *)

(** C6.  When the first EnumPrintersW call reports that no buffer is
    needed, GetInstalledPrinters returns the empty list (not nil) and a nil
    error, after that one call. *)
Theorem GetInstalledPrinters_no_printers (os : oracle) (m : machine) :
  let flags := Z.lor PRINTER_ENUM_LOCAL PRINTER_ENUM_CONNECTIONS in
  let q := EnumPrintersW flags 4 None 0 in
  outNeeded (clip (os (log m) q)) = 0 ->
  GetInstalledPrinters os m
  = (Returned (Some [], None),
     {| self := self m; log := log m ++ [(q, clip (os (log m) q))] |}).
Proof.
  cbv zeta. intros H.
  unfold GetInstalledPrinters, bind, Call, ret. cbn [fst snd].
  rewrite H. reflexivity.
Qed.

Lemma GetInstalledPrinters_no_printers_witness :
  outNeeded (clip (os_ready (log m_zero) (EnumPrintersW 6 4 None 0))) = 0
  /\ GetInstalledPrinters os_ready m_zero
     = (Returned (Some [], None),
        {| self := wp_zero;
           log := [(EnumPrintersW 6 4 None 0,
                    clip (os_ready [] (EnumPrintersW 6 4 None 0)))] |}).
Proof.
  split; [vm_compute; reflexivity|].
  apply (GetInstalledPrinters_no_printers os_ready m_zero).
  vm_compute. reflexivity.
Defined.

(** ** Character size *)

Lemma size_byte (w h : Z) :
  0 <= w <= 7 -> 0 <= h <= 7 ->
  Z.lor (Z.shiftl w 4) h = 16 * w + h.
Proof.
  intros Hw Hh.
  assert (Ew : w = 0 \/ w = 1 \/ w = 2 \/ w = 3 \/ w = 4 \/ w = 5 \/ w = 6 \/ w = 7)
    by lia.
  assert (Eh : h = 0 \/ h = 1 \/ h = 2 \/ h = 3 \/ h = 4 \/ h = 5 \/ h = 6 \/ h = 7)
    by lia.
  repeat (destruct Ew as [Ew|Ew]; [subst w|]); subst;
    repeat (destruct Eh as [Eh|Eh]; [subst h|]); subst; reflexivity.
Qed.

(** C7.  For width and height both in [0,7], SetCharacterSize gives the
    command [GS ! n] with the single parameter byte n = width<<4 | height
    (a value below 256, equal to 16*width + height); when either lies
    outside [0,7] it fails with InvalidArgument, and nothing is clamped. *)
Theorem SetCharacterSize_encoding (width height : Z) :
  (0 <= width <= 7 -> 0 <= height <= 7 ->
   SetCharacterSize width height
   = inl [GS; 0x21; Z.lor (Z.shiftl width 4) height]
   /\ 0 <= Z.lor (Z.shiftl width 4) height < 256
   /\ Z.lor (Z.shiftl width 4) height = 16 * width + height)
  /\ (~ (0 <= width <= 7 /\ 0 <= height <= 7) ->
      SetCharacterSize width height = inr InvalidArgument).
Proof.
  unfold SetCharacterSize. split.
  - intros Hw Hh.
    replace (0 <=? width) with true by (symmetry; apply Z.leb_le; lia).
    replace (width <=? 7) with true by (symmetry; apply Z.leb_le; lia).
    replace (0 <=? height) with true by (symmetry; apply Z.leb_le; lia).
    replace (height <=? 7) with true by (symmetry; apply Z.leb_le; lia).
    cbn [andb]. rewrite (size_byte width height Hw Hh).
    repeat split; lia.
  - intros Hn.
    destruct (0 <=? width) eqn:H1; [|reflexivity].
    destruct (width <=? 7) eqn:H2; [|reflexivity].
    destruct (0 <=? height) eqn:H3; [|reflexivity].
    destruct (height <=? 7) eqn:H4; [|reflexivity].
    apply Z.leb_le in H1, H2, H3, H4. exfalso. apply Hn. lia.
Qed.

Lemma SetCharacterSize_encoding_witness :
  (0 <= 2 <= 7 /\ 0 <= 2 <= 7 /\ SetCharacterSize 2 2 = inl [GS; 0x21; 0x22])
  /\ (~ (0 <= 8 <= 7 /\ 0 <= 0 <= 7)
      /\ SetCharacterSize 8 0 = inr InvalidArgument).
Proof.
  split.
  - split; [lia|]. split; [lia|].
    apply (proj1 (SetCharacterSize_encoding 2 2)); lia.
  - split; [lia|].
    apply (proj2 (SetCharacterSize_encoding 8 0)). lia.
Defined.

(** * Further properties of the transport *)

(** ** The constructor *)

Lemma NewWindowsPrinter_outcome
        (os : oracle) (printer : string) (m : machine) :
  let ro := clip (os (log m) (OpenPrinterW printer)) in
  let h := outHandle ro in
  let t1 := log m ++ [(OpenPrinterW printer, ro)] in
  let rd := clip (os t1 (StartDocPrinterW h 1 raw_document)) in
  let t2 := t1 ++ [(StartDocPrinterW h 1 raw_document, rd)] in
  let rp := clip (os t2 (StartPagePrinter h)) in
  let wp := {| name := printer; handle := h;
               buffer := []; jobStarted := true |} in
  (snd (fst (NewWindowsPrinter os printer m)) = None <->
   has_NUL printer = false /\ r1 ro <> 0 /\ r1 rd <> 0 /\ r1 rp <> 0)
  /\ (snd (fst (NewWindowsPrinter os printer m)) = None ->
      NewWindowsPrinter os printer m
      = ((NewPrinter wp, None),
         {| self := wp; log := t2 ++ [(StartPagePrinter h, rp)] |})).
Proof.
  cbv zeta. rewrite NewWindowsPrinter_unfold. cbv zeta.
  destruct (has_NUL printer).
  { cbn [fst snd]. split; [split|]; intros H; try discriminate H.
    destruct H as [H _]. discriminate H. }
  set (ro := clip (os (log m) (OpenPrinterW printer))).
  destruct (r1 ro =? 0) eqn:Ho.
  { apply Z.eqb_eq in Ho. cbn [fst snd].
    split; [split|]; intros H; try discriminate H.
    destruct H as [_ [H _]]. contradiction. }
  apply Z.eqb_neq in Ho.
  rewrite startDoc_unfold. cbv zeta. cbn [self log handle name buffer].
  set (h := outHandle ro).
  set (rd := clip (os (log m ++ [(OpenPrinterW printer, ro)])
                      (StartDocPrinterW h 1 raw_document))).
  destruct (r1 rd =? 0) eqn:Hd.
  { apply Z.eqb_eq in Hd. cbn [fst snd].
    split; [split|]; intros H; try discriminate H.
    destruct H as [_ [_ [H _]]]. contradiction. }
  apply Z.eqb_neq in Hd.
  match goal with |- context [r1 ?r =? 0] => set (rp := r) end.
  destruct (r1 rp =? 0) eqn:Hp.
  { apply Z.eqb_eq in Hp. cbn [fst snd].
    split; [split|]; intros H; try discriminate H.
    destruct H as [_ [_ [_ H]]]. contradiction. }
  apply Z.eqb_neq in Hp. cbn [fst snd self].
  split; [split|]; auto.
Qed.

(** X1.  NewWindowsPrinter returns a nil error exactly when the name holds
    no NUL and the spooler accepts OpenPrinterW, StartDocPrinterW and
    StartPagePrinter.  It has then made those three calls and no other,
    the framing calls on the handle the spooler stored, with level 1 and
    the RAW document; the printer it returns has that handle, a started
    job and no captured bytes. *)
Theorem NewWindowsPrinter_succeeds_iff
        (os : oracle) (printer : string) (m : machine) :
  let ro := clip (os (log m) (OpenPrinterW printer)) in
  let h := outHandle ro in
  let t1 := log m ++ [(OpenPrinterW printer, ro)] in
  let rd := clip (os t1 (StartDocPrinterW h 1 raw_document)) in
  let t2 := t1 ++ [(StartDocPrinterW h 1 raw_document, rd)] in
  let rp := clip (os t2 (StartPagePrinter h)) in
  let wp := {| name := printer; handle := h;
               buffer := []; jobStarted := true |} in
  (snd (fst (NewWindowsPrinter os printer m)) = None <->
   has_NUL printer = false /\ r1 ro <> 0 /\ r1 rd <> 0 /\ r1 rp <> 0)
  /\ (snd (fst (NewWindowsPrinter os printer m)) = None ->
      NewWindowsPrinter os printer m
      = ((NewPrinter wp, None),
         {| self := wp; log := t2 ++ [(StartPagePrinter h, rp)] |})).
Proof. apply NewWindowsPrinter_outcome. Qed.

Lemma NewWindowsPrinter_succeeds_iff_witness :
  snd (fst (NewWindowsPrinter os_ready "POS-80" m_zero)) = None
  /\ NewWindowsPrinter os_ready "POS-80" m_zero
     = ((NewPrinter wp_started, None),
        {| self := wp_started;
           log := (([] ++ [(OpenPrinterW "POS-80",
                            clip (os_ready [] (OpenPrinterW "POS-80")))])
                   ++ [(StartDocPrinterW 42 1 raw_document,
                        clip (os_ready [] (StartDocPrinterW 42 1 raw_document)))])
                  ++ [(StartPagePrinter 42,
                       clip (os_ready [] (StartPagePrinter 42)))] |}).
Proof.
  split; [vm_compute; reflexivity|].
  apply (proj2 (NewWindowsPrinter_succeeds_iff os_ready "POS-80" m_zero)).
  vm_compute. reflexivity.
Defined.

(** X2.  When the name holds a NUL, or when OpenPrinterW fails, the
    constructor returns the zero Printer with the matching error (invalid
    name, or failed to open with the name and the spooler's error).  It
    reaches neither startDoc nor Close: there is no call at all for a bad
    name, and OpenPrinterW alone when the open fails. *)
Theorem NewWindowsPrinter_no_handle
        (os : oracle) (printer : string) (m : machine) :
  let ro := clip (os (log m) (OpenPrinterW printer)) in
  let m' := snd (NewWindowsPrinter os printer m) in
  (has_NUL printer = true ->
   fst (NewWindowsPrinter os printer m)
   = (Printer_zero, Some (ErrInvalidPrinterName EINVAL))
   /\ log m' = log m)
  /\ (has_NUL printer = false -> r1 ro = 0 ->
      fst (NewWindowsPrinter os printer m)
      = (Printer_zero, Some (ErrOpenPrinter printer (lastErr ro)))
      /\ log m' = log m ++ [(OpenPrinterW printer, ro)]).
Proof.
  cbv zeta. rewrite NewWindowsPrinter_unfold. cbv zeta. split.
  - intros ->. split; reflexivity.
  - intros -> Hr. apply Z.eqb_eq in Hr. rewrite Hr. split; reflexivity.
Qed.

Lemma NewWindowsPrinter_no_handle_witness :
  (has_NUL (String zero "POS") = true
   /\ fst (NewWindowsPrinter os_ready (String zero "POS") m_zero)
      = (Printer_zero, Some (ErrInvalidPrinterName EINVAL)))
  /\ (has_NUL "Missing" = false
      /\ r1 (clip (os_open_fails (log m_zero) (OpenPrinterW "Missing"))) = 0
      /\ fst (NewWindowsPrinter os_open_fails "Missing" m_zero)
         = (Printer_zero, Some (ErrOpenPrinter "Missing" 1801))).
Proof.
  split.
  - split; [reflexivity|].
    apply (proj1 (NewWindowsPrinter_no_handle os_ready (String zero "POS") m_zero)).
    reflexivity.
  - split; [reflexivity|]. split; [vm_compute; reflexivity|].
    apply (proj2 (NewWindowsPrinter_no_handle os_open_fails "Missing" m_zero)).
    + reflexivity.
    + vm_compute. reflexivity.
Defined.

(** ** What one operation does to the state *)

Lemma run_cons (os : oracle) (o : op) (ops : list op) (m : machine) :
  run os (o :: ops) m
  = (fst (step os o m) :: fst (run os ops (snd (step os o m))),
     snd (run os ops (snd (step os o m)))).
Proof. reflexivity. Qed.

Lemma run_app_snd (os : oracle) (a b : list op) :
  forall m, snd (run os (a ++ b) m) = snd (run os b (snd (run os a m))).
Proof.
  induction a as [|o a IH]; intros m.
  - reflexivity.
  - cbn [app]. rewrite !run_cons. cbn [snd]. apply IH.
Qed.

Lemma run_invariant (os : oracle) (I : machine -> Prop) :
  (forall o m, I m -> I (snd (step os o m))) ->
  forall ops m, I m -> I (snd (run os ops m)).
Proof.
  intros Hstep ops. induction ops as [|o ops IH]; intros m Hm.
  - exact Hm.
  - rewrite run_cons. cbn [snd]. apply IH, Hstep, Hm.
Qed.

Lemma Forall_map_fst {P : call -> Prop} (t : trace) (cs : list call) :
  map fst t = cs -> Forall P cs -> Forall P (map fst t).
Proof. intros ->. auto. Qed.

Lemma no_open_keeps_closed (h : Z) (t : trace) :
  Forall (fun c => is_OpenPrinterW c = false) (map fst t) ->
  forall l, ~ In h (open_handles l) -> ~ In h (open_handles (l ++ t)).
Proof.
  unfold open_handles. intros Ht l. rewrite fold_left_app.
  generalize (fold_left account l []). clear l.
  induction t as [|[c r] t IH]; intros hs Hn.
  - exact Hn.
  - cbn [map fst] in Ht. inversion Ht as [|? ? Hc Ht']; subst.
    cbn [fold_left]. apply IH; [exact Ht'|].
    cbn [fst] in Hc. destruct c; cbn [account]; try exact Hn; try discriminate Hc.
    destruct (r1 r =? 0); [exact Hn|].
    intros Hin. apply in_remove in Hin. destruct Hin as [Hin _]. auto.
Qed.

Lemma teardown_no_open (wp : WindowsPrinter) :
  Forall (fun c => is_OpenPrinterW c = false) (teardown wp).
Proof.
  unfold teardown. destruct (jobStarted wp); destruct (handle wp =? 0);
    cbn [app]; repeat constructor.
Qed.

Lemma step_calls_no_open (o : op) (wp : WindowsPrinter) :
  Forall (fun c => is_OpenPrinterW c = false) (step_calls o wp).
Proof.
  destruct o as [p|p| |]; cbn [step_calls]; try constructor.
  - destruct (jobStarted wp); [|constructor].
    destruct p; repeat constructor.
  - apply teardown_no_open.
Qed.

Lemma step_calls_handle (o : op) (wp : WindowsPrinter) :
  Forall (fun c => call_handle c = Some (handle wp)) (step_calls o wp).
Proof.
  destruct o as [p|p| |]; cbn [step_calls]; try constructor.
  - destruct (jobStarted wp); [|constructor].
    destruct p; repeat constructor.
  - unfold teardown. destruct (jobStarted wp); destruct (handle wp =? 0);
      cbn [app]; repeat constructor.
Qed.

Lemma step_calls_inert (o : op) (wp : WindowsPrinter) :
  handle wp = 0 -> jobStarted wp = false -> step_calls o wp = [].
Proof.
  intros Hh Hj. destruct o as [p|p| |]; cbn [step_calls]; try reflexivity.
  - rewrite Hj. reflexivity.
  - unfold teardown. rewrite Hj, Hh. reflexivity.
Qed.

(** The state a Close leaves: the job is never left started; the handle is
    zero when Close returns nil and kept when it fails. *)
Lemma Close_state (os : oracle) (m : machine) :
  let m' := snd (Close os m) in
  name (self m') = name (self m)
  /\ jobStarted (self m') = false
  /\ ((fst (Close os m) = None /\ handle (self m') = 0
       /\ (handle (self m) <> 0 ->
           ~ In (handle (self m)) (open_handles (log m'))))
      \/ (exists x, fst (Close os m) = Some (ErrClosePrinter x)
                    /\ handle (self m') = handle (self m)
                    /\ handle (self m) <> 0)).
Proof.
  cbv zeta. rewrite Close_unfold. cbv zeta.
  destruct (handle (self m) =? 0) eqn:Hh.
  - apply Z.eqb_eq in Hh. cbn [fst snd self log name jobStarted handle].
    split; [reflexivity|]. split; [reflexivity|]. left.
    split; [reflexivity|]. split; [exact Hh|]. intros Hn. contradiction.
  - apply Z.eqb_neq in Hh.
    match goal with |- context [r1 ?r =? 0] => destruct (r1 r =? 0) eqn:Hr end;
      cbn [fst snd self log name jobStarted handle];
      (split; [reflexivity|]); (split; [reflexivity|]).
    + right. eexists. split; [reflexivity|]. split; [reflexivity|exact Hh].
    + left. split; [reflexivity|]. split; [reflexivity|]. intros _.
      rewrite open_handles_snoc. cbn [account]. rewrite Hr. apply remove_In.
Qed.

Lemma Write_effect (os : oracle) (p : list byte) (m : machine) :
  let m' := snd (Write os p m) in
  exists t,
    log m' = log m ++ t
    /\ map fst t = step_calls (OpWrite p) (self m)
    /\ name (self m') = name (self m)
    /\ handle (self m') = handle (self m)
    /\ jobStarted (self m') = jobStarted (self m).
Proof.
  cbv zeta. cbn [step_calls].
  destruct (jobStarted (self m)) eqn:Hj.
  - destruct p as [|x p].
    + rewrite (Write_empty os m Hj). cbn [snd]. exists [].
      rewrite app_nil_r. auto.
    + assert (Hp : x :: p <> []) by discriminate.
      rewrite (Write_started os (x :: p) m Hj Hp). cbv zeta.
      destruct (r1 (write_reply os (x :: p) m) =? 0);
        cbn [snd log self]; eexists; (split; [reflexivity|]);
        cbn [map fst with_buffer name handle jobStarted]; auto.
  - rewrite (Write_not_started os p m Hj). cbn [snd]. exists [].
    rewrite app_nil_r. auto.
Qed.

Lemma step_spec (os : oracle) (o : op) (m : machine) :
  let m' := snd (step os o m) in
  exists t,
    log m' = log m ++ t
    /\ map fst t = step_calls o (self m)
    /\ name (self m') = name (self m)
    /\ jobStarted (self m')
       = match o with OpClose => false | _ => jobStarted (self m) end
    /\ (handle (self m') = handle (self m)
        \/ (o = OpClose /\ handle (self m') = 0
            /\ ~ In (handle (self m)) (open_handles (log m')))).
Proof.
  cbv zeta. destruct o as [p|p| |].
  - change (snd (step os (OpWrite p) m)) with (snd (Write os p m)).
    destruct (Write_effect os p m) as [t [Hl [Hc [Hn [Hh Hj]]]]].
    exists t. auto 6.
  - change (snd (step os (OpRead p) m)) with m.
    exists []. rewrite app_nil_r. auto 6.
  - change (snd (step os OpClose m)) with (snd (Close os m)).
    destruct (Close_log os m) as [t [Hl [Hc _]]].
    destruct (Close_state os m) as [Hn [Hj Hcase]].
    exists t. split; [exact Hl|]. split; [exact Hc|].
    split; [exact Hn|]. split; [exact Hj|].
    destruct Hcase as [[_ [Hz Hrel]]|[x [_ [Hk _]]]]; [|left; exact Hk].
    destruct (Z.eq_dec (handle (self m)) 0) as [E|E].
    + left. rewrite Hz, E. reflexivity.
    + right. auto.
  - change (snd (step os OpBytes m)) with m.
    exists []. rewrite app_nil_r. auto 6.
Qed.

(** ** Close again, and what follows a Close *)

(** X3.  A Close that fails has still ended the job: the job flag is
    cleared, the handle is kept, and the error is the one of ClosePrinter.
    The next Close therefore only tries the release again: ClosePrinter on
    the same handle, with no second end-page or end-document. *)
Theorem Close_retry_releases_only (os : oracle) (m : machine) (e : error) :
  fst (Close os m) = Some e ->
  let m' := snd (Close os m) in
  (exists x, e = ErrClosePrinter x)
  /\ jobStarted (self m') = false
  /\ handle (self m') = handle (self m)
  /\ handle (self m) <> 0
  /\ map fst (since m' (snd (Close os m'))) = [ClosePrinter (handle (self m))].
Proof.
  intros He. cbv zeta.
  destruct (Close_state os m) as [_ [Hj [[Hn _]|[x [Hx [Hk Hh]]]]]].
  - rewrite Hn in He. discriminate He.
  - rewrite Hx in He. injection He as <-.
    split; [eauto|]. split; [exact Hj|]. split; [exact Hk|]. split; [exact Hh|].
    destruct (Close_log os (snd (Close os m))) as [t [Hl [Hc _]]].
    rewrite (since_app _ _ _ Hl), Hc. unfold teardown.
    rewrite Hj, Hk. apply Z.eqb_neq in Hh. rewrite Hh. reflexivity.
Qed.

Lemma Close_retry_releases_only_witness :
  fst (Close os_close_fails m_started) = Some (ErrClosePrinter 6)
  /\ map fst (since (snd (Close os_close_fails m_started))
                    (snd (Close os_close_fails
                                (snd (Close os_close_fails m_started)))))
     = [ClosePrinter 42].
Proof.
  split; [vm_compute; reflexivity|].
  apply (Close_retry_releases_only os_close_fails m_started (ErrClosePrinter 6)).
  vm_compute. reflexivity.
Defined.

Lemma run_not_started (os : oracle) (ops : list op) :
  forall m,
    jobStarted (self m) = false ->
    Forall refused (fst (run os ops m))
    /\ jobStarted (self (snd (run os ops m))) = false
    /\ buffer (self (snd (run os ops m))) = buffer (self m)
    /\ exists t, log (snd (run os ops m)) = log m ++ t
                 /\ Forall (fun c => is_ClosePrinter c = true) (map fst t).
Proof.
  induction ops as [|o ops IH]; intros m Hj.
  - cbn. split; [constructor|]. split; [exact Hj|]. split; [reflexivity|].
    exists []. rewrite app_nil_r. split; [reflexivity|constructor].
  - rewrite run_cons. cbn [fst snd].
    destruct (step_spec os o m) as [t [Hl [Hc [_ [Hj' _]]]]].
    assert (Hj1 : jobStarted (self (snd (step os o m))) = false).
    { rewrite Hj'. destruct o; auto. }
    destruct (IH _ Hj1) as [Hr [Hjf [Hb [t' [Hl' Hc']]]]].
    assert (Hres : refused (fst (step os o m))
                   /\ buffer (self (snd (step os o m))) = buffer (self m)).
    { destruct o as [p|p| |].
      - change (step os (OpWrite p) m)
          with (ResWrite (fst (Write os p m)), snd (Write os p m)).
        rewrite (Write_not_started os p m Hj). cbn. auto.
      - cbn. auto.
      - change (step os OpClose m)
          with (ResClose (fst (Close os m)), snd (Close os m)).
        cbn [fst snd refused]. split; [exact I|apply Close_buffer].
      - cbn. auto. }
    destruct Hres as [Hres Hbuf].
    split; [constructor; assumption|]. split; [exact Hjf|].
    split; [rewrite Hb; exact Hbuf|].
    exists (t ++ t'). split; [rewrite Hl', Hl, app_assoc; reflexivity|].
    rewrite map_app. apply Forall_app. split; [|exact Hc'].
    apply (Forall_map_fst t _ Hc).
    destruct o as [p|p| |]; cbn [step_calls]; try constructor.
    + rewrite Hj. constructor.
    + unfold teardown. rewrite Hj. destruct (handle (self m) =? 0);
        repeat constructor.
Qed.

(** X4.  Nothing starts the job again.  After a Close, whatever it
    returned, every later Write is turned down with "print job not
    started", the captured bytes stay as they were before the Close, and
    the only spooler calls still made are ClosePrinter calls. *)
Theorem Write_after_Close_refused (os : oracle) (ops : list op) (m : machine) :
  let m1 := snd (Close os m) in
  let m2 := snd (run os ops m1) in
  Forall refused (fst (run os ops m1))
  /\ jobStarted (self m2) = false
  /\ fst (Bytes m2) = fst (Bytes m)
  /\ Forall (fun c => is_ClosePrinter c = true) (map fst (since m1 m2)).
Proof.
  cbv zeta. destruct (Close_state os m) as [_ [Hj _]].
  destruct (run_not_started os ops _ Hj) as [Hr [Hjf [Hb [t [Hl Hc]]]]].
  split; [exact Hr|]. split; [exact Hjf|].
  split; [cbn; rewrite Hb; apply Close_buffer|].
  rewrite (since_app _ _ _ Hl). exact Hc.
Qed.

(** ** Invariants of a sequence of calls *)

(** X5.  A printer only ever calls the spooler on its own handle: every
    call made by a sequence of Write, Read, Close and Bytes carries the
    handle the printer had at the start. *)
Theorem calls_use_own_handle (os : oracle) (ops : list op) (m : machine) :
  Forall (fun c => call_handle c = Some (handle (self m)))
         (map fst (since m (snd (run os ops m)))).
Proof.
  set (h := handle (self m)).
  assert (H : exists t,
             log (snd (run os ops m)) = log m ++ t
             /\ Forall (fun c => call_handle c = Some h) (map fst t)
             /\ (handle (self (snd (run os ops m))) = h
                 \/ (handle (self (snd (run os ops m))) = 0
                     /\ jobStarted (self (snd (run os ops m))) = false))).
  { apply (run_invariant os (fun m' => exists t,
             log m' = log m ++ t
             /\ Forall (fun c => call_handle c = Some h) (map fst t)
             /\ (handle (self m') = h
                 \/ (handle (self m') = 0 /\ jobStarted (self m') = false)))).
    - intros o m' [t [Hl [Hf Hcase]]].
      destruct (step_spec os o m') as [t' [Hl' [Hc' [_ [Hj' Hh']]]]].
      exists (t ++ t'). split; [rewrite Hl', Hl, app_assoc; reflexivity|].
      split.
      + rewrite map_app. apply Forall_app. split; [exact Hf|].
        apply (Forall_map_fst t' _ Hc'). destruct Hcase as [E|[E Ej]].
        * rewrite <- E. apply step_calls_handle.
        * rewrite (step_calls_inert o _ E Ej). constructor.
      + destruct Hh' as [Hk|[Ho [Hz _]]].
        * rewrite Hk, Hj'. destruct Hcase as [E|[E Ej]]; [left; exact E|].
          right. split; [exact E|]. destruct o; auto.
        * right. rewrite Hj'. subst o. auto.
    - exists []. rewrite app_nil_r. split; [reflexivity|].
      split; [constructor|left; reflexivity]. }
  destruct H as [t [Hl [Hf _]]]. rewrite (since_app _ _ _ Hl). exact Hf.
Qed.

(** X6.  No handle is leaked once Close has returned nil: whatever calls
    were made on the printer before, after a Close that returns nil the
    handle the printer started with is not among the open ones. *)
Theorem Close_nil_releases_handle (os : oracle) (ops : list op) (m : machine) :
  handle (self m) <> 0 ->
  let m1 := snd (run os ops m) in
  fst (Close os m1) = None ->
  handle (self (snd (Close os m1))) = 0
  /\ ~ In (handle (self m)) (open_handles (log (snd (Close os m1)))).
Proof.
  intros Hh. cbv zeta. set (h := handle (self m)) in *.
  assert (H : handle (self (snd (run os ops m))) = h
              \/ ~ In h (open_handles (log (snd (run os ops m))))).
  { apply (run_invariant os (fun m' =>
             handle (self m') = h \/ ~ In h (open_handles (log m'))));
      [|left; reflexivity].
    intros o m' Hcase.
    destruct (step_spec os o m') as [t [Hl [Hc [_ [_ Hh']]]]].
    destruct Hcase as [E|Hn].
    - destruct Hh' as [Hk|[_ [_ Hrel]]].
      + left. rewrite Hk. exact E.
      + right. rewrite <- E. exact Hrel.
    - right. rewrite Hl. apply no_open_keeps_closed; [|exact Hn].
      apply (Forall_map_fst t _ Hc). apply step_calls_no_open. }
  intros Hnil.
  destruct (Close_state os (snd (run os ops m)))
    as [_ [_ [[_ [Hz Hrel]]|[x [Hx _]]]]];
    [|rewrite Hx in Hnil; discriminate Hnil].
  split; [exact Hz|].
  destruct H as [E|Hn].
  - rewrite <- E. apply Hrel. rewrite E. exact Hh.
  - destruct (Close_log os (snd (run os ops m))) as [t [Hl [Hc _]]].
    rewrite Hl. apply no_open_keeps_closed; [|exact Hn].
    apply (Forall_map_fst t _ Hc). apply teardown_no_open.
Qed.

Lemma Close_nil_releases_handle_witness :
  handle (self m_started) <> 0
  /\ fst (Close os_ready (snd (run os_ready [OpWrite hello] m_started))) = None
  /\ handle (self (snd (Close os_ready
                          (snd (run os_ready [OpWrite hello] m_started))))) = 0.
Proof.
  split; [vm_compute; discriminate|]. split; [vm_compute; reflexivity|].
  apply (Close_nil_releases_handle os_ready [OpWrite hello] m_started).
  - vm_compute. discriminate.
  - vm_compute. reflexivity.
Defined.

Lemma calls_app (t t' : trace) (a b : list call) :
  map fst t = a -> map fst t' = b -> map fst (t ++ t') = a ++ b.
Proof. intros <- <-. apply map_app. Qed.

(** X7.  The calls a printer makes over its life have one shape: first
    WritePrinter calls only, then at most once the pair end-page,
    end-document, then ClosePrinter calls only.  So no byte is written
    after the page was ended, and page and document are ended once at
    most. *)
Theorem calls_have_job_shape (os : oracle) (ops : list op) (m : machine) :
  let h := handle (self m) in
  exists ws ends cl,
    map fst (since m (snd (run os ops m))) = ws ++ ends ++ cl
    /\ Forall (fun c => is_WritePrinter c = true) ws
    /\ (ends = [] \/ ends = [EndPagePrinter h; EndDocPrinter h])
    /\ Forall (fun c => is_ClosePrinter c = true) cl.
Proof.
  cbv zeta. set (h := handle (self m)).
  assert (H : exists t ws ends cl,
             log (snd (run os ops m)) = log m ++ t
             /\ map fst t = ws ++ ends ++ cl
             /\ Forall (fun c => is_WritePrinter c = true) ws
             /\ (ends = [] \/ ends = [EndPagePrinter h; EndDocPrinter h])
             /\ Forall (fun c => is_ClosePrinter c = true) cl
             /\ (jobStarted (self (snd (run os ops m))) = true ->
                 ends = [] /\ cl = []
                 /\ handle (self (snd (run os ops m))) = h)).
  { apply (run_invariant os (fun m' => exists t ws ends cl,
             log m' = log m ++ t
             /\ map fst t = ws ++ ends ++ cl
             /\ Forall (fun c => is_WritePrinter c = true) ws
             /\ (ends = [] \/ ends = [EndPagePrinter h; EndDocPrinter h])
             /\ Forall (fun c => is_ClosePrinter c = true) cl
             /\ (jobStarted (self m') = true ->
                 ends = [] /\ cl = [] /\ handle (self m') = h))).
    - intros o m' [t [ws [ends [cl [Hl [Hc [Hw [He [Hcl Hj]]]]]]]]].
      destruct (step_spec os o m') as [t' [Hl' [Hc' [_ [Hj' Hh']]]]].
      pose proof (calls_app t t' _ _ Hc Hc') as Happ.
      exists (t ++ t').
      assert (Hlog : log (snd (step os o m')) = log m ++ t ++ t')
        by (rewrite Hl', Hl, app_assoc; reflexivity).
      destruct (jobStarted (self m')) eqn:Ejob.
      + destruct (Hj eq_refl) as [-> [-> Hk]]. rewrite app_nil_r in Happ.
        assert (Hkeep : o <> OpClose -> handle (self (snd (step os o m'))) = h).
        { intros Hn. destruct Hh' as [Hx|[Ho _]];
            [rewrite Hx; exact Hk|contradiction]. }
        destruct o as [p|p| |]; cbn [step_calls] in Happ.
        * rewrite Ejob in Happ.
          exists (ws ++ match p with
                        | [] => []
                        | _ :: _ => [write_call (handle (self m')) p]
                        end), [], [].
          split; [exact Hlog|].
          split; [rewrite !app_nil_r; exact Happ|].
          split; [apply Forall_app; split; [exact Hw|];
                  destruct p; repeat constructor|].
          split; [auto|]. split; [constructor|]. intros _.
          split; [reflexivity|]. split; [reflexivity|].
          apply Hkeep. discriminate.
        * exists ws, [], []. rewrite !app_nil_r in *.
          split; [exact Hlog|]. split; [exact Happ|]. split; [exact Hw|].
          split; [auto|]. split; [constructor|]. intros _.
          split; [reflexivity|]. split; [reflexivity|].
          apply Hkeep. discriminate.
        * unfold teardown in Happ. rewrite Ejob, Hk in Happ.
          exists ws, [EndPagePrinter h; EndDocPrinter h],
                 (if h =? 0 then [] else [ClosePrinter h]).
          split; [exact Hlog|]. split; [exact Happ|].
          split; [exact Hw|]. split; [auto|].
          split; [destruct (h =? 0); repeat constructor|].
          rewrite Hj'. intros Hf. discriminate Hf.
        * exists ws, [], []. rewrite !app_nil_r in *.
          split; [exact Hlog|]. split; [exact Happ|]. split; [exact Hw|].
          split; [auto|]. split; [constructor|]. intros _.
          split; [reflexivity|]. split; [reflexivity|].
          apply Hkeep. discriminate.
      + assert (Hjf : jobStarted (self (snd (step os o m'))) = false)
          by (rewrite Hj'; destruct o; auto).
        exists ws, ends, (cl ++ step_calls o (self m')).
        split; [exact Hlog|].
        split; [rewrite Happ, <- !app_assoc; reflexivity|].
        split; [exact Hw|]. split; [exact He|].
        split; [|rewrite Hjf; intros Hf; discriminate Hf].
        apply Forall_app. split; [exact Hcl|].
        destruct o as [p|p| |]; cbn [step_calls]; try constructor.
        * rewrite Ejob. constructor.
        * unfold teardown. rewrite Ejob.
          destruct (handle (self m') =? 0); repeat constructor.
    - exists [], [], [], []. rewrite app_nil_r.
      split; [reflexivity|]. split; [reflexivity|]. split; [constructor|].
      split; [auto|]. split; [constructor|]. auto. }
  destruct H as [t [ws [ends [cl [Hl [Hc [Hw [He [Hcl _]]]]]]]]].
  exists ws, ends, cl. rewrite (since_app _ _ _ Hl). auto.
Qed.

(** ** A whole job *)

Lemma run_writes_started (os : oracle) (ps : list (list byte)) :
  forall m,
    jobStarted (self m) = true ->
    Forall (fun p => p <> []) ps ->
    let m' := snd (run os (map OpWrite ps) m) in
    exists t,
      log m' = log m ++ t
      /\ map fst t = map (write_call (handle (self m))) ps
      /\ jobStarted (self m') = true
      /\ handle (self m') = handle (self m).
Proof.
  induction ps as [|p ps IH]; intros m Hj Hps; cbv zeta.
  - exists []. rewrite app_nil_r. cbn. auto.
  - inversion Hps as [|? ? Hp Hps']; subst.
    cbn [map]. rewrite run_cons. cbn [snd].
    destruct (step_spec os (OpWrite p) m) as [t [Hl [Hc [_ [Hj' Hh']]]]].
    assert (Hk : handle (self (snd (step os (OpWrite p) m))) = handle (self m)).
    { destruct Hh' as [Hx|[Ho _]]; [exact Hx|discriminate Ho]. }
    rewrite Hj in Hj'.
    destruct (IH _ Hj' Hps') as [t' [Hl' [Hc' [Hjf Hhf]]]].
    exists (t ++ t'). split; [rewrite Hl', Hl, app_assoc; reflexivity|].
    split.
    + etransitivity; [exact (calls_app t t' _ _ Hc Hc')|].
      cbn [step_calls]. rewrite Hj, Hk.
      destruct p; [contradiction|reflexivity].
    + rewrite Hjf, Hhf. auto.
Qed.

(** X8.  A whole job, for any spooler and any payloads: when the
    constructor succeeds with a non-zero handle, writing non-empty buffers
    and closing makes exactly the calls OpenPrinterW, StartDocPrinterW,
    StartPagePrinter, one WritePrinter per buffer in order, EndPagePrinter,
    EndDocPrinter, ClosePrinter, all on that handle, whether or not the
    writes succeed. *)
Theorem job_call_sequence
        (os : oracle) (printer : string) (ps : list (list byte)) (m : machine) :
  let h := outHandle (clip (os (log m) (OpenPrinterW printer))) in
  let m1 := snd (NewWindowsPrinter os printer m) in
  let m2 := snd (run os (map OpWrite ps ++ [OpClose]) m1) in
  snd (fst (NewWindowsPrinter os printer m)) = None ->
  h <> 0 ->
  Forall (fun p => p <> []) ps ->
  map fst (since m m2)
  = [OpenPrinterW printer; StartDocPrinterW h 1 raw_document; StartPagePrinter h]
      ++ map (write_call h) ps
      ++ [EndPagePrinter h; EndDocPrinter h; ClosePrinter h].
Proof.
  cbv zeta. intros Hok Hh Hps.
  rewrite (proj2 (NewWindowsPrinter_outcome os printer m) Hok). cbn [snd].
  set (h := outHandle (clip (os (log m) (OpenPrinterW printer)))) in *.
  match goal with
  | |- context [run os _ {| self := ?wp; log := ((log m ++ [?a]) ++ [?b]) ++ [?c] |}] =>
    set (m1 := {| self := wp; log := ((log m ++ [a]) ++ [b]) ++ [c] |});
      pose (evs := [a; b; c]);
      assert (Hl1 : log m1 = log m ++ evs) by apply snoc3;
      assert (Hc1 : map fst evs
                    = [OpenPrinterW printer; StartDocPrinterW h 1 raw_document;
                       StartPagePrinter h]) by reflexivity
  end.
  rewrite run_app_snd.
  destruct (run_writes_started os ps m1 eq_refl Hps) as [t [Hl [Hc [Hj Hk]]]].
  change (handle (self m1)) with h in *.
  set (m2 := snd (run os (map OpWrite ps) m1)) in *.
  change (snd (run os [OpClose] m2)) with (snd (Close os m2)).
  destruct (Close_log os m2) as [t' [Hl' [Hc' _]]].
  unfold teardown in Hc'. rewrite Hj, Hk in Hc'.
  apply Z.eqb_neq in Hh. rewrite Hh in Hc'.
  assert (Hlog : log (snd (Close os m2)) = log m ++ (evs ++ t) ++ t').
  { rewrite Hl', Hl, Hl1, <- !app_assoc. reflexivity. }
  rewrite (since_app _ _ _ Hlog).
  etransitivity;
    [exact (calls_app _ t' _ _ (calls_app _ t _ _ Hc1 Hc) Hc')|].
  rewrite <- app_assoc. reflexivity.
Qed.

Lemma job_call_sequence_witness :
  snd (fst (NewWindowsPrinter os_write_fails "POS-80" m_zero)) = None
  /\ outHandle (clip (os_write_fails (log m_zero) (OpenPrinterW "POS-80"))) <> 0
  /\ Forall (fun p => p <> []) [hello; hello]
  /\ map fst (since m_zero
               (snd (run os_write_fails (map OpWrite [hello; hello] ++ [OpClose])
                         (snd (NewWindowsPrinter os_write_fails "POS-80" m_zero)))))
     = [OpenPrinterW "POS-80"; StartDocPrinterW 42 1 raw_document;
        StartPagePrinter 42]
         ++ map (write_call 42) [hello; hello]
         ++ [EndPagePrinter 42; EndDocPrinter 42; ClosePrinter 42].
Proof.
  assert (Hps : Forall (fun p : list byte => p <> []) [hello; hello])
    by (repeat constructor; discriminate).
  split; [vm_compute; reflexivity|]. split; [vm_compute; discriminate|].
  split; [exact Hps|].
  apply (job_call_sequence os_write_fails "POS-80" [hello; hello] m_zero).
  - vm_compute. reflexivity.
  - vm_compute. discriminate.
  - exact Hps.
Defined.

(** X9.  The count a Write returns is never negative and fits 32 bits,
    whatever the spooler stored and whether or not the Write failed. *)
Theorem Write_count_range
        (os : oracle) (p : list byte) (m : machine) (n : Z) (e : option error) :
  fst (Write os p m) = Returned (n, e) -> 0 <= n < 2 ^ 32.
Proof.
  destruct (jobStarted (self m)) eqn:Hj.
  - destruct p as [|x p].
    + rewrite (Write_empty os m Hj). intros H. discriminate H.
    + assert (Hp : x :: p <> []) by discriminate.
      rewrite (Write_started os (x :: p) m Hj Hp). cbv zeta.
      unfold write_reply, clip. cbn [outWritten r1].
      rewrite int_uint32.
      match goal with |- context [if ?c then _ else _] => destruct c end;
        cbn [fst]; intros H; injection H as <- _; apply uint32_range.
  - rewrite (Write_not_started os p m Hj). cbn [fst].
    intros H. injection H as <- _. lia.
Qed.

Lemma Write_count_range_witness :
  fst (Write os_short_write hello m_started) = Returned (2, None)
  /\ 0 <= 2 < 2 ^ 32.
Proof.
  split; [vm_compute; reflexivity|].
  apply (Write_count_range os_short_write hello m_started 2 None).
  vm_compute. reflexivity.
Defined.

(** ** Enumeration, beyond the empty case *)

Lemma granted_uint32 (os : oracle) (t : trace) (r : reply) :
  granted os t (1 * outNeeded (clip r)) = true.
Proof.
  unfold granted, clip. cbn [outNeeded]. rewrite Z.mul_1_l.
  pose proof (uint32_range (outNeeded r)) as H.
  replace (uint32 (outNeeded r) <? 2 ^ 32) with true
    by (symmetry; apply Z.ltb_lt; lia).
  reflexivity.
Qed.

Lemma GetInstalledPrinters_unfold (os : oracle) (m : machine) :
  let rq := clip (os (log m) enum_query) in
  let t1 := log m ++ [(enum_query, rq)] in
  let rf := clip (os t1 (enum_fetch (outNeeded rq))) in
  let m2 := {| self := self m;
               log := t1 ++ [(enum_fetch (outNeeded rq), rf)] |} in
  GetInstalledPrinters os m =
  if outNeeded rq =? 0
  then (Returned (Some [], None), {| self := self m; log := t1 |})
  else if r1 rf =? 0
  then (Returned (None, Some (ErrEnumerate (lastErr rf))), m2)
  else if granted os (log m2) (16 * outReturned rf)
  then if 2 ^ 20 <? outReturned rf
       then (Panicked (SliceBoundsOutOfRange (outReturned rf) (2 ^ 20)), m2)
       else (Returned (Some (parse_names (info_at rf) 0
                                         (Z.to_nat (outReturned rf)) []), None),
             m2)
  else (Died OutOfMemory, m2).
Proof.
  cbv zeta.
  unfold GetInstalledPrinters, enum_query, enum_fetch, bind, Call, make, ret.
  cbn [fst snd self log].
  destruct (outNeeded _ =? 0); [reflexivity|].
  rewrite granted_uint32. cbn [negb].
  destruct (r1 _ =? 0); [reflexivity|].
  destruct (granted _ _ _); cbn [negb]; [|reflexivity].
  destruct (2 ^ 20 <? _); reflexivity.
Qed.

(** X10.  The enumeration follows the query-then-fetch protocol and leaves
    the printer object alone: it makes the size query, and, only when a
    size other than zero is reported, one fetch whose buffer size is
    exactly the size reported; both with the flags local and connections
    and level 4. *)
Theorem GetInstalledPrinters_protocol (os : oracle) (m : machine) :
  let rq := clip (os (log m) enum_query) in
  let m' := snd (GetInstalledPrinters os m) in
  self m' = self m
  /\ log m' = log m ++ since m m'
  /\ map fst (since m m')
     = EnumPrintersW 6 4 None 0
       :: (if outNeeded rq =? 0 then []
           else [EnumPrintersW 6 4 (Some (outNeeded rq)) (outNeeded rq)]).
Proof.
  cbv zeta. rewrite GetInstalledPrinters_unfold. cbv zeta.
  set (rq := clip (os (log m) enum_query)).
  assert (H : forall (A : Type) (a : A) (m' : machine) (t : trace) cs,
             log m' = log m ++ t -> self m' = self m -> map fst t = cs ->
             self (snd (a, m')) = self m
             /\ log (snd (a, m')) = log m ++ since m (snd (a, m'))
             /\ map fst (since m (snd (a, m'))) = cs).
  { intros A a m' t cs Hl Hs Hc. cbn [snd].
    rewrite (since_app _ _ _ Hl). auto. }
  destruct (outNeeded rq =? 0).
  - eapply H; [reflexivity|reflexivity|reflexivity].
  - repeat match goal with
           | |- context [if ?c then (_, _) else _] => destruct c
           end;
      (eapply H; [apply snoc2|reflexivity|reflexivity]).
Qed.

(** X11.  The enumeration returns an error exactly when a size other than
    zero was reported and the fetch call fails; the list is then nil and
    the error wraps the spooler's error.  When the fetch succeeds, the
    slice of names is made first: the process dies, out of memory, exactly
    when that request (16 bytes for each entry counted) is refused, and the
    enumeration panics (slice bounds out of range) exactly when the request
    is met and the count is above 1<<20, the length of the array type the
    buffer is viewed through. *)
Theorem GetInstalledPrinters_outcomes (os : oracle) (m : machine) :
  let rq := clip (os (log m) enum_query) in
  let rf := clip (os (log m ++ [(enum_query, rq)])
                     (enum_fetch (outNeeded rq))) in
  let room := granted os ((log m ++ [(enum_query, rq)])
                          ++ [(enum_fetch (outNeeded rq), rf)])
                      (16 * outReturned rf) in
  ((exists l e, fst (GetInstalledPrinters os m) = Returned (l, Some e)) <->
   outNeeded rq <> 0 /\ r1 rf = 0)
  /\ (outNeeded rq <> 0 /\ r1 rf = 0 ->
      fst (GetInstalledPrinters os m)
      = Returned (None, Some (ErrEnumerate (lastErr rf))))
  /\ (fst (GetInstalledPrinters os m) = Died OutOfMemory <->
      outNeeded rq <> 0 /\ r1 rf <> 0 /\ room = false)
  /\ ((exists p, fst (GetInstalledPrinters os m) = Panicked p) <->
      outNeeded rq <> 0 /\ r1 rf <> 0 /\ room = true
      /\ 2 ^ 20 < outReturned rf).
Proof.
  cbv zeta. rewrite GetInstalledPrinters_unfold. cbv zeta. cbn [log].
  set (rq := clip (os (log m) enum_query)).
  set (rf := clip (os (log m ++ [(enum_query, rq)]) (enum_fetch (outNeeded rq)))).
  set (room := granted os _ _).
  destruct (outNeeded rq =? 0) eqn:Hn;
    [apply Z.eqb_eq in Hn|apply Z.eqb_neq in Hn].
  { cbn [fst]. split; [split|split; [|split; split]].
    - intros [l [e H]]. discriminate H.
    - intros [H _]. contradiction.
    - intros [H _]. contradiction.
    - intros H. discriminate H.
    - intros [H _]. contradiction.
    - intros [p H]. discriminate H.
    - intros [H _]. contradiction. }
  destruct (r1 rf =? 0) eqn:Hr;
    [apply Z.eqb_eq in Hr|apply Z.eqb_neq in Hr].
  { cbn [fst]. split; [split|split; [|split; split]].
    - auto.
    - intros _. eauto.
    - reflexivity.
    - intros H. discriminate H.
    - intros [_ [H _]]. contradiction.
    - intros [p H]. discriminate H.
    - intros [_ [H _]]. contradiction. }
  destruct room eqn:Hroom.
  - destruct (2 ^ 20 <? outReturned rf) eqn:Hk;
      [apply Z.ltb_lt in Hk|apply Z.ltb_ge in Hk]; cbn [fst];
      (split; [split|split; [|split; split]]);
      try (intros [l [e H]]; discriminate H);
      try (intros [_ H]; contradiction);
      try (intros H; discriminate H);
      try (intros [_ [_ H]]; discriminate H).
    + auto.
    + intros _. eauto.
    + intros [p H]. discriminate H.
    + intros [_ [_ [_ H]]]. lia.
  - cbn [fst]. split; [split|split; [|split; split]];
      try (intros [l [e H]]; discriminate H);
      try (intros [_ H]; contradiction).
    + auto.
    + intros _. reflexivity.
    + intros [p H]. discriminate H.
    + intros [_ [_ [H _]]]. discriminate H.
Qed.

Lemma GetInstalledPrinters_outcomes_witness :
  (outNeeded (clip (os_fetch_fails (log m_zero) enum_query)) <> 0
   /\ r1 (clip (os_fetch_fails
                  (log m_zero
                   ++ [(enum_query, clip (os_fetch_fails (log m_zero) enum_query))])
                  (enum_fetch
                     (outNeeded (clip (os_fetch_fails (log m_zero) enum_query))))))
      = 0)
  /\ fst (GetInstalledPrinters os_fetch_fails m_zero)
     = Returned (None, Some (ErrEnumerate 122)).
Proof.
  assert (H : outNeeded (clip (os_fetch_fails (log m_zero) enum_query)) <> 0
   /\ r1 (clip (os_fetch_fails
                  (log m_zero
                   ++ [(enum_query, clip (os_fetch_fails (log m_zero) enum_query))])
                  (enum_fetch
                     (outNeeded (clip (os_fetch_fails (log m_zero) enum_query))))))
      = 0).
  { split; [vm_compute; discriminate|vm_compute; reflexivity]. }
  split; [exact H|].
  apply (proj1 (proj2 (GetInstalledPrinters_outcomes os_fetch_fails m_zero)) H).
Defined.

Lemma skipn_nth_error {A} (l : list A) :
  forall i, (i < List.length l)%nat ->
            exists e, nth_error l i = Some e /\ skipn i l = e :: skipn (S i) l.
Proof.
  induction l as [|a l IH]; intros i Hi.
  - cbn in Hi. lia.
  - destruct i as [|i].
    + exists a. split; reflexivity.
    + cbn [List.length] in Hi. destruct (IH i) as [e [Hn Hs]]; [lia|].
      exists e. split; [exact Hn|exact Hs].
Qed.

Lemma info_at_filled (r : reply) (i : nat) :
  (i < List.length (outInfo r))%nat ->
  skipn i (outInfo r) = info_at r i :: skipn (S i) (outInfo r).
Proof.
  intros Hi. destruct (skipn_nth_error (outInfo r) i Hi) as [e [Hn Hs]].
  unfold info_at. rewrite Hn. exact Hs.
Qed.

(** The index loop collects, in order, the names of the entries it visits. *)
Lemma parse_names_collects (r : reply) :
  forall n i printers,
    (i + n <= List.length (outInfo r))%nat ->
    parse_names (info_at r) i n printers
    = printers ++ flat_map entry_name (firstn n (skipn i (outInfo r))).
Proof.
  induction n as [|n IH]; intros i printers Hle.
  - cbn. rewrite app_nil_r. reflexivity.
  - cbn [parse_names]. rewrite IH by lia.
    rewrite (info_at_filled r i) by lia.
    cbn [firstn flat_map]. unfold entry_name at 2.
    destruct (PrinterName (info_at r i)).
    + rewrite <- app_assoc. reflexivity.
    + reflexivity.
Qed.

Lemma granted_small (os : oracle) (t : trace) (k : Z) :
  k <= 2 ^ 20 -> granted os t (16 * k) = true.
Proof.
  intros Hk. unfold granted.
  replace (16 * k <? 2 ^ 32) with true; [reflexivity|].
  symmetry. apply Z.ltb_lt. change (2 ^ 20) with 1048576 in Hk.
  change (2 ^ 32) with 4294967296. lia.
Qed.

(** X12.  When the fetch succeeds, with a count of at most 1<<20 entries
    that the spooler has filled, the enumeration returns, with a nil
    error, the names of the first [returned] entries in the spooler's
    order: an entry with a nil name pointer is skipped, duplicates are
    kept, and each name is cut at its first NUL within 1024 units. *)
Theorem GetInstalledPrinters_names (os : oracle) (m : machine) :
  let rq := clip (os (log m) enum_query) in
  let rf := clip (os (log m ++ [(enum_query, rq)])
                     (enum_fetch (outNeeded rq))) in
  let n := Z.to_nat (outReturned rf) in
  outNeeded rq <> 0 ->
  r1 rf <> 0 ->
  outReturned rf <= 2 ^ 20 ->
  (n <= List.length (outInfo rf))%nat ->
  fst (GetInstalledPrinters os m)
  = Returned (Some (flat_map entry_name (firstn n (outInfo rf))), None).
Proof.
  cbv zeta. intros Hn Hr Hk Hlen.
  rewrite GetInstalledPrinters_unfold. cbv zeta.
  apply Z.eqb_neq in Hn, Hr. rewrite Hn, Hr.
  rewrite (granted_small os _ _ Hk).
  apply Z.ltb_ge in Hk. rewrite Hk. cbn [fst].
  rewrite parse_names_collects by (cbn; exact Hlen).
  reflexivity.
Qed.

Lemma GetInstalledPrinters_names_witness :
  fst (GetInstalledPrinters os_three_entries m_zero)
  = Returned (Some [[80; 79; 83]; [76; 80]], None).
Proof.
  apply (GetInstalledPrinters_names os_three_entries m_zero).
  - vm_compute. discriminate.
  - vm_compute. discriminate.
  - vm_compute. discriminate.
  - vm_compute. apply le_n.
Defined.

Lemma UTF16ToString_no_NUL (us : list Z) : ~ In 0 (UTF16ToString us).
Proof.
  induction us as [|u us IH]; cbn [UTF16ToString].
  - intros H. exact H.
  - destruct (u =? 0) eqn:Hu.
    + intros H. exact H.
    + apply Z.eqb_neq in Hu. intros [H|H]; [congruence|exact (IH H)].
Qed.

Lemma UTF16ToString_length (us : list Z) :
  (List.length (UTF16ToString us) <= List.length us)%nat.
Proof.
  induction us as [|u us IH]; cbn [UTF16ToString List.length].
  - lia.
  - destruct (u =? 0); cbn [List.length]; lia.
Qed.

Lemma parse_names_well_cut (info : nat -> PRINTER_INFO_4) :
  forall n i printers,
    Forall well_cut printers ->
    Forall well_cut (parse_names info i n printers)
    /\ (List.length (parse_names info i n printers)
        <= List.length printers + n)%nat.
Proof.
  induction n as [|n IH]; intros i printers Hp.
  - cbn. split; [exact Hp|lia].
  - cbn [parse_names].
    destruct (PrinterName (info i)) as [us|].
    + assert (Hp' : Forall well_cut (printers ++ [UTF16ToString (firstn 1024 us)])).
      { apply Forall_app. split; [exact Hp|]. constructor; [|constructor].
        split; [apply UTF16ToString_no_NUL|].
        etransitivity; [apply UTF16ToString_length|]. apply firstn_le_length. }
      destruct (IH (S i) _ Hp') as [Hw Hl]. split; [exact Hw|].
      rewrite length_app in Hl. cbn [List.length] in Hl. lia.
    + destruct (IH (S i) _ Hp) as [Hw Hl]. split; [exact Hw|]. lia.
Qed.

(** X13.  Every list of names the enumeration returns comes with a nil
    error, holds at most 1<<20 names, and each name has no NUL unit and at
    most 1024 units: a longer printer name is cut. *)
Theorem GetInstalledPrinters_names_well_cut
        (os : oracle) (m : machine) (names : list (list Z)) (e : option error) :
  fst (GetInstalledPrinters os m) = Returned (Some names, e) ->
  e = None
  /\ Forall well_cut names
  /\ Z.of_nat (List.length names) <= 2 ^ 20.
Proof.
  rewrite GetInstalledPrinters_unfold. cbv zeta.
  destruct (outNeeded _ =? 0).
  { cbn [fst]. intros H. injection H as <- <-.
    split; [reflexivity|]. split; [constructor|]. cbn. lia. }
  destruct (r1 _ =? 0); [cbn [fst]; intros H; discriminate H|].
  destruct (granted _ _ _); [|cbn [fst]; intros H; discriminate H].
  match goal with
  | |- context [2 ^ 20 <? ?x] => generalize x; intros k
  end.
  destruct (2 ^ 20 <? k) eqn:Hk; [cbn [fst]; intros H; discriminate H|].
  apply Z.ltb_ge in Hk. cbn [fst]. intros H. injection H as <- <-.
  split; [reflexivity|].
  match goal with
  | |- context [parse_names ?info 0 ?n []] =>
    destruct (parse_names_well_cut info n 0%nat [] (Forall_nil _)) as [Hw Hl]
  end.
  split; [exact Hw|]. cbn [List.length] in Hl.
  change (2 ^ 20) with 1048576 in *. lia.
Qed.

Lemma GetInstalledPrinters_names_well_cut_witness :
  fst (GetInstalledPrinters os_three_entries m_zero)
  = Returned (Some [[80; 79; 83]; [76; 80]], None)
  /\ Forall well_cut [[80; 79; 83]; [76; 80]].
Proof.
  split; [vm_compute; reflexivity|].
  apply (GetInstalledPrinters_names_well_cut
           os_three_entries m_zero [[80; 79; 83]; [76; 80]] None).
  vm_compute. reflexivity.
Defined.

Example enumeration_panics_on_huge_count :
  fst (GetInstalledPrinters os_too_many m_zero)
  = Panicked (SliceBoundsOutOfRange 1048577 1048576).
Proof. vm_compute. reflexivity. Qed.

Example enumeration_dies_out_of_memory :
  fst (GetInstalledPrinters os_out_of_memory m_zero) = Died OutOfMemory.
Proof. vm_compute. reflexivity. Qed.
